(** * LexiMind: the request pipeline of [app.py]

    A shallow embedding of the Flask application [app.py]: the PDF text
    extractor [read_pdf_from_bytes], the form handler [index] with its
    validation, marker truncation and top-5 retrieval, the explanation
    orchestrator [get_legal_explanation] and the [chat] route.

    Conventions.
    - A Python [str] is a [string]; its characters are Stdlib's 8-bit
      [ascii] (a literal with a non-ASCII symbol takes several
      positions; nothing below depends on how many).
    - Third-party collaborators (the two PDF parsers, the sentence
      encoder, the classifier, the LLM client, [np.argsort]) and the
      loaded artifacts are the fields of [Runtime]; what a collaborator
      may raise is part of its result type.
    - A cosine score is an integer on a fixed-point scale: ranking only
      uses the order of scores and their negation. *)

From Stdlib Require Import String Ascii List ZArith Lia Bool Arith.
From Stdlib Require Import Sorting.Sorted Sorting.Permutation.
From Stdlib Require Import DecimalString.
Import ListNotations.

Local Open Scope string_scope.
Local Open Scope list_scope.

(** ** Python string operations used by the application *)

Module PyStr.

(** [str.isspace] on one character, for code points below 256:
    TAB, LF, VT, FF, CR, FS, GS, RS, US, SPACE, NEL and NBSP. *)
Definition is_space (c : ascii) : bool :=
  let n := nat_of_ascii c in
  (((9 <=? n) && (n <=? 13)) || ((28 <=? n) && (n <=? 32))
   || (n =? 133) || (n =? 160))%nat.

(** [s[n:]] and [s[:n]] for a non-negative [n]. *)
Fixpoint drop (n : nat) (s : string) : string :=
  match n, s with
  | O, _ => s
  | S _, EmptyString => EmptyString
  | S n', String _ s' => drop n' s'
  end.

Fixpoint take (n : nat) (s : string) : string :=
  match n, s with
  | O, _ => EmptyString
  | S _, EmptyString => EmptyString
  | S n', String c s' => String c (take n' s')
  end.

(** [s[start:]] with Python's reading of a negative [start]: it counts
    from the end and is clamped at the beginning. *)
Definition slice_from (start : Z) (s : string) : string :=
  if (start <? 0)%Z
  then drop (Z.to_nat (Z.of_nat (String.length s) + start)) s
  else drop (Z.to_nat start) s.

(** [s.startswith(p)]. *)
Fixpoint startswith (p s : string) : bool :=
  match p, s with
  | EmptyString, _ => true
  | String _ _, EmptyString => false
  | String a p', String b s' => Ascii.eqb a b && startswith p' s'
  end.

(** [s.find(sub)]: the lowest index at which [sub] occurs, [-1] when it
    does not occur. [find_from] carries the index of the current suffix. *)
Fixpoint find_from (sub s : string) (i : Z) : Z :=
  if startswith sub s then i
  else match s with
       | EmptyString => (-1)%Z
       | String _ s' => find_from sub s' (i + 1)%Z
       end.

Definition find (s sub : string) : Z := find_from sub s 0%Z.

(** [sub in s]. *)
Definition contains (sub s : string) : bool :=
  negb (find s sub =? -1)%Z.

Definition rev (s : string) : string :=
  string_of_list_ascii (List.rev (list_ascii_of_string s)).

(** [s.endswith(p)]. *)
Definition endswith (p s : string) : bool := startswith (rev p) (rev s).

(** [s.lstrip()], [s.rstrip()] and [s.strip()] without argument. *)
Fixpoint lstrip (s : string) : string :=
  match s with
  | EmptyString => EmptyString
  | String c s' => if is_space c then lstrip s' else s
  end.

Definition rstrip (s : string) : string := rev (lstrip (rev s)).

Definition strip (s : string) : string := rstrip (lstrip s).

(** [s.lower()], for code points below 256: A-Z and the Latin-1 capitals
    (192-222 except the multiplication sign 215) move up by 32. *)
Definition lower_char (c : ascii) : ascii :=
  let n := nat_of_ascii c in
  if (((65 <=? n) && (n <=? 90))
      || ((192 <=? n) && (n <=? 222) && negb (n =? 215)))%nat
  then ascii_of_nat (n + 32) else c.

Fixpoint lower (s : string) : string :=
  match s with
  | EmptyString => EmptyString
  | String c s' => String (lower_char c) (lower s')
  end.

(** [s.split()] without argument: the maximal runs of non-space
    characters, in order. [word] is the run being read, reversed. *)
Fixpoint split_from (s : string) (word : list ascii) : list string :=
  match s with
  | EmptyString =>
      match word with
      | [] => []
      | _ => [string_of_list_ascii (List.rev word)]
      end
  | String c s' =>
      if is_space c
      then match word with
           | [] => split_from s' []
           | _ => string_of_list_ascii (List.rev word) :: split_from s' []
           end
      else split_from s' (c :: word)
  end.

Definition split (s : string) : list string := split_from s [].

(** [sep.join(parts)]. *)
Fixpoint join (sep : string) (parts : list string) : string :=
  match parts with
  | [] => EmptyString
  | [p] => p
  | p :: rest => p ++ sep ++ join sep rest
  end.

(** Truthiness of a [str]: non-empty. *)
Definition nonempty (s : string) : bool :=
  match s with EmptyString => false | _ => true end.

(** [str(n)] for a natural number. *)
Definition of_nat (n : nat) : string :=
  NilEmpty.string_of_uint (Nat.to_uint n).

End PyStr.

(** The newline character, for ["\n".join(...)]. *)
Definition newline : string := String (ascii_of_nat 10) EmptyString.

(** ** Document text extractor: [read_pdf_from_bytes] *)

(** What one parser does on a byte buffer, as the loop over its pages
    observes it: the texts of the pages it extracted, in order ([None]
    where [extract_text()] gave [None]), and the exception that stopped
    it, if any. A parser that cannot open the buffer extracts no page
    and raises. *)
Record PdfRun : Type := {
  extracted : list (option string);
  raised : option string
}.

(** The pages kept by [if txt: text_pages.append(txt)]. *)
Fixpoint page_texts (pages : list (option string)) : list string :=
  match pages with
  | [] => []
  | Some txt :: rest =>
      if PyStr.nonempty txt then txt :: page_texts rest else page_texts rest
  | None :: rest => page_texts rest
  end.

(** ** Request handler: [index] *)

Inductive Method : Type := GET | POST | HEAD.

(** An uploaded file: its name and what [uploaded.read()] returns. *)
Record FileStorage : Type := {
  filename : string;
  content : list Byte.byte
}.

(** The parts of the request that [index] reads: the method, the form
    field [text_input] and the file field [file], each possibly absent. *)
Record Request : Type := {
  method : Method;
  text_input : option string;
  file : option FileStorage
}.

(** One entry of [results]. *)
Record RankedResult : Type := {
  case : string;
  score : Z;
  rank : nat;
  preview : string;
  full_text : string
}.

(** What the view returns: a message with a status code, the rendered
    template with its three arguments and the headers set on it, or an
    exception that no [except] of the view catches (the framework then
    answers 500). *)
Inductive Response : Type :=
| Message (body : string) (status : nat)
| Rendered (headers : list (string * string))
           (results : option (list RankedResult))
           (category : option string)
           (original_document : option string)
| Unhandled.

Definition status_of (r : Response) : nat :=
  match r with
  | Message _ status => status
  | Rendered _ _ _ _ => 200
  | Unhandled => 500
  end.

(** A call into one of the two models, with the text it is given. *)
Inductive Call : Type :=
| Predict (text : string)
| Encode (text : string).

(** The result of a collaborator that may raise: [Raises e] carries
    [str(e)]. *)
Inductive result (A : Type) : Type :=
| Returns (a : A)
| Raises (e : string).
Arguments Returns {A} a.
Arguments Raises {A} e.

(** Contract of [np.argsort] with its default [kind]: the indices of the
    array, each once, in an order that makes the keys non-decreasing.
    NumPy documents the default kind as not stable, so the order of the
    indices of equal keys is not part of the contract. *)
Definition key_at (keys : list Z) (i : nat) : Z := nth i keys 0%Z.

Definition keys_ascend (keys : list Z) (i j : nat) : Prop :=
  (key_at keys i <= key_at keys j)%Z.

Definition is_argsort (keys : list Z) (order : list nat) : Prop :=
  Permutation order (seq 0 (length keys))
  /\ StronglySorted (keys_ascend keys) order.

(** [# get text after "JUDGMENT" if present] *)
Definition text_after_judgment (input_text : string) : string :=
  let start_index := PyStr.find input_text "JUDGMENT" in
  if negb (start_index =? -1)%Z
  then PyStr.slice_from start_index input_text
  else input_text.

(** [len(input_text.strip().split())] *)
Definition word_count_of (input_text : string) : nat :=
  length (PyStr.split (PyStr.strip input_text)).

Definition no_cache_headers : list (string * string) :=
  [("Cache-Control", "no-cache, no-store, must-revalidate");
   ("Pragma", "no-cache");
   ("Expires", "0")].

(** ** JSON values as Python sees them after [request.get_json()]

    Numbers are integers; an object is the list of its members, looked
    up by key. *)

#[local] Set Warnings "-register-all".

Inductive json : Type :=
| JNull
| JBool (b : bool)
| JNum (n : Z)
| JStr (s : string)
| JArr (items : list json)
| JObj (members : list (string * json)).

(** Exceptions raised inside the two chat functions: by the interpreter
    on a value of the wrong type, or by a collaborator, with [str(e)]. *)
Inductive Exception : Type :=
| TypeError
| AttributeError
| External (e : string).

Module Py.

(** Truthiness, as tested by [if x] and [not x]. *)
Definition truthy (v : json) : bool :=
  match v with
  | JNull => false
  | JBool b => b
  | JNum n => negb (n =? 0)%Z
  | JStr s => PyStr.nonempty s
  | JArr items => match items with [] => false | _ => true end
  | JObj members => match members with [] => false | _ => true end
  end.

(** [d.get(key, default)] on the members of a dict. *)
Fixpoint dict_get (members : list (string * json)) (key : string)
    (default : json) : json :=
  match members with
  | [] => default
  | (k, v) :: rest => if String.eqb k key then v else dict_get rest key default
  end.

Definition has_key (members : list (string * json)) (key : string) : bool :=
  existsb (fun kv => String.eqb (fst kv) key) members.

Definition is_str (key : string) (v : json) : bool :=
  match v with
  | JStr s => String.eqb s key
  | _ => false
  end.

(** [key in v] for a string [key]: key of a dict, element of a list,
    substring of a string; the other values are not containers. *)
Definition contains_str (key : string) (v : json) : Exception + bool :=
  match v with
  | JObj members => inr (has_key members key)
  | JArr items => inr (existsb (is_str key) items)
  | JStr s => inr (PyStr.contains key s)
  | _ => inl TypeError
  end.

(** [v[key]] for a string [key]; only called after [key in v]. *)
Definition getitem_str (v : json) (key : string) : Exception + json :=
  match v with
  | JObj members => inr (dict_get members key JNull)
  | _ => inl TypeError
  end.

(** [len(v)]. *)
Definition len (v : json) : Exception + nat :=
  match v with
  | JStr s => inr (String.length s)
  | JArr items => inr (length items)
  | JObj members => inr (length members)
  | _ => inl TypeError
  end.

(** The elements [for chunk in v] goes through. *)
Definition iterate (v : json) : Exception + list json :=
  match v with
  | JArr items => inr items
  | JStr s =>
      inr (map (fun c => JStr (String c EmptyString)) (list_ascii_of_string s))
  | JObj members => inr (map (fun kv => JStr (fst kv)) members)
  | _ => inl TypeError
  end.

(** [v[:n]]. *)
Definition slice_to (n : nat) (v : json) : Exception + json :=
  match v with
  | JStr s => inr (JStr (PyStr.take n s))
  | JArr items => inr (JArr (firstn n items))
  | _ => inl TypeError
  end.

End Py.

(** ** Explanation orchestrator: [get_legal_explanation] *)

Record ExplanationResult : Type := {
  error : option string;
  answer : option string;
  sources : list json
}.

(** The three prompt texts of the source. *)
Inductive Template : Type :=
| StructuredSummary
| LaymanExplanation
| DefaultPrompt.

(** [system_prompt.format(context=context, question=question)]: the
    chosen text with its two holes filled. The context is kept as the
    pairs that [f"[Source: {...}] {...}"] formats, one per chunk. *)
Record Prompt : Type := {
  template : Template;
  context : list (json * json);
  user_question : string
}.

(** What one [gemini_model.generate_content(prompt)] followed by
    [response.text] gives: a text (empty when the response or its text
    is falsy), or an exception with [str(e)]. *)
Inductive Generation : Type :=
| Generated (text : string)
| Failed (error_str : string).

Definition structured_keywords : list string :=
  ["structured summary"; "summary with sections";
   "give a structured summary"; "case background"; "high court";
   "supreme court"; "why it matters"].

Definition layman_keywords : list string :=
  ["explain in simple terms"; "layman"; "non-law student"; "simple words";
   "easy explanation"; "plain english"; "everyday language"].

Definition any_keyword (keywords : list string) (text : string) : bool :=
  existsb (fun keyword => PyStr.contains keyword text) keywords.

Definition choose_template (question : string) : Template :=
  let question_lower := PyStr.lower question in
  let wants_structured := any_keyword structured_keywords question_lower in
  let wants_layman := any_keyword layman_keywords question_lower in
  if wants_structured then StructuredSummary
  else if wants_layman then LaymanExplanation
  else DefaultPrompt.

(** One element of the list that becomes [context]. *)
Definition chunk_entry (chunk : json) : Exception + (json * json) :=
  match chunk with
  | JObj members =>
      let source := Py.dict_get members "case" (JStr "Unknown Case") in
      match Py.slice_to 1000
              (Py.dict_get members "full_text"
                 (Py.dict_get members "preview" (JStr ""))) with
      | inl e => inl e
      | inr body => inr (source, body)
      end
  | _ => inl AttributeError
  end.

Fixpoint chunk_entries (chunks : list json)
    : Exception + list (json * json) :=
  match chunks with
  | [] => inr []
  | chunk :: rest =>
      match chunk_entry chunk with
      | inl e => inl e
      | inr entry =>
          match chunk_entries rest with
          | inl e => inl e
          | inr entries => inr (entry :: entries)
          end
      end
  end.

(** [[chunk.get('case', 'Unknown Case') for chunk in context_chunks
    if chunk.get('case')]], on chunks that are dicts. *)
Fixpoint cited_cases (chunks : list json) : list json :=
  match chunks with
  | [] => []
  | JObj members :: rest =>
      if Py.truthy (Py.dict_get members "case" JNull)
      then Py.dict_get members "case" (JStr "Unknown Case") :: cited_cases rest
      else cited_cases rest
  | _ :: rest => cited_cases rest
  end.

Definition failure (message : string) : ExplanationResult :=
  {| error := Some message; answer := None; sources := [] |}.

(** The message chosen when the last attempt raised. *)
Definition classify_error (max_retries : nat) (error_str : string)
    : ExplanationResult :=
  if PyStr.contains "quota" (PyStr.lower error_str)
     || PyStr.contains "429" error_str
  then failure "❌ QUOTA EXCEEDED: Your Gemini API free tier limit has been reached. Please upgrade to a paid plan or wait for the quota to reset. See: https://ai.google.dev/pricing"
  else if PyStr.contains "api_key" (PyStr.lower error_str)
          || PyStr.contains "permission" (PyStr.lower error_str)
  then failure "❌ API KEY ISSUE: Please check your Gemini API key in the .env file. Make sure it's valid and has the required permissions."
  else failure ("❌ AI service error after " ++ PyStr.of_nat max_retries
                ++ " attempts: " ++ error_str).

(** ** Chatbot route: [chat] *)

(** The text of an ["error"] member: a literal of the source, or
    [f"Chatbot error: {str(e)}"] for the exception caught by the outer
    [except]. *)
Inductive ErrorText : Type :=
| Literal (message : string)
| ChatbotError (e : Exception).

(** The JSON object passed to [jsonify], member by member ([None] for a
    member that is not set), and the status code. *)
Record ChatReply : Type := {
  success : bool;
  response : option string;
  reply_error : option ErrorText;
  reply_sources : option (list json);
  status : nat
}.

Definition refuse (message : ErrorText) (code : nat) : ChatReply :=
  {| success := false; response := None; reply_error := Some message;
     reply_sources := None; status := code |}.

Definition canned (message : string) : ChatReply :=
  {| success := true; response := Some message; reply_error := None;
     reply_sources := None; status := 200 |}.

Definition greetings : list string :=
  ["hi"; "hello"; "hey"; "help"; "what can you do"].

Definition is_greeting (question : string) : bool :=
  existsb (String.eqb (PyStr.strip (PyStr.lower question))) greetings.

Definition greeting_message : string :=
  "Hello! I'm your legal assistant. I can help explain your uploaded legal documents in simple, everyday language with clear, structured responses using emojis and sections. Please upload a document first using the main form, then ask me specific questions about it. For example: 'What does this mean?', 'Explain this in simple words', 'Give me a structured summary', or 'Explain this like I'm not a law student.'".

Definition guidance_message : string :=
  "I can help explain legal concepts in simple terms with clear, structured responses using emojis and sections, but I need some context from your uploaded document to provide accurate information. Please upload a document first using the main form, then ask me specific questions about it. Try: 'Give me a structured summary' or 'Explain this in simple terms like I'm not a law student.'".

(** The three ways the retrieval part of the handler ends: the [try]
    block raised, an index fell outside an array, or the results. *)
Inductive Retrieval : Type :=
| SearchError (e : string)
| LookupError
| Retrieved (results : list RankedResult).

(** ** The running application *)

(** What the module-level names of [app.py] are bound to while the
    server runs: the two PDF parsers, the artifacts loaded at start-up
    (three parallel arrays, the sentence encoder [model] and the
    classifier [modellog]), [util.cos_sim] of a query against one row of
    [embeddings], [np.argsort], and [gemini_model], which is [None] when
    the client could not be initialised and otherwise tells what its
    call number [attempt] answers to a prompt. *)
Record Runtime : Type := {
  pdfplumber_open : list Byte.byte -> PdfRun;
  PyPDF2_PdfReader : list Byte.byte -> PdfRun;
  Embedding : Type;
  judgment_texts : list string;
  case_names : list string;
  embeddings : list Embedding;
  model_encode : string -> result Embedding;
  modellog_predict : string -> result string;
  cos_sim : Embedding -> Embedding -> Z;
  argsort : list Z -> list nat;
  gemini_model : option (nat -> Prompt -> Generation)
}.

Section App.

Variable rt : Runtime.

(** *** [read_pdf_from_bytes] *)

(** [text_pages] is one list for the whole function: what the first
    [try] appended is still there when the fallback appends. The first
    [try] returns only when the primary parser did not raise and left
    some text. *)
Definition read_pdf_from_bytes (file_bytes : list Byte.byte) : string :=
  let run1 := pdfplumber_open rt file_bytes in
  let text_pages := page_texts (extracted run1) in
  match raised run1, text_pages with
  | None, _ :: _ => PyStr.join newline text_pages
  | _, _ =>
      (* fallback to PyPDF2 *)
      let run2 := PyPDF2_PdfReader rt file_bytes in
      let text_pages := text_pages ++ page_texts (extracted run2) in
      match raised run2 with
      | None => PyStr.join newline text_pages
      | Some e => "[ERROR] Could not extract PDF text: " ++ e
      end
  end.

(** *** [index] *)

(** [np.argsort(-cos_scores)[:5]] *)
Definition top_results (cos_scores : list Z) : list nat :=
  firstn 5 (argsort rt (map Z.opp cos_scores)).

(** The [try] block of the semantic search: the scores of all rows and
    the indices of the five best. *)
Definition semantic_search (text : string) : result (list Z * list nat) :=
  match model_encode rt text with
  | Raises e => Raises e
  | Returns query_embedding =>
      let cos_scores := map (cos_sim rt query_embedding) (embeddings rt) in
      Returns (cos_scores, top_results cos_scores)
  end.

(** The loop [for idx in top_results: results.append({...})]; an index
    outside one of the arrays raises [IndexError], here [None]. *)
Fixpoint build_results (cos_scores : list Z) (top : list nat)
    (results : list RankedResult) : option (list RankedResult) :=
  match top with
  | [] => Some results
  | idx :: rest =>
      match nth_error (case_names rt) idx, nth_error cos_scores idx,
            nth_error (judgment_texts rt) idx with
      | Some name, Some s, Some txt =>
          build_results cos_scores rest
            (results ++ [ {| case := name;
                             score := s;
                             rank := length results + 1;
                             preview := PyStr.take 500 txt;
                             full_text := txt |} ])
      | _, _, _ => None
      end
  end.

(** Retrieval as the handler performs it, for the fixed K = 5 and the
    loaded corpus. *)
Definition retrieve (text : string) : Retrieval :=
  match semantic_search text with
  | Raises e => SearchError e
  | Returns (cos_scores, top) =>
      match build_results cos_scores top [] with
      | None => LookupError
      | Some results => Retrieved results
      end
  end.

(** The branch [if not input_text:] of a POST: the text comes from the
    uploaded file, or the request is answered at once. *)
Definition text_from_upload (request : Request) : Response + string :=
  match file request with
  | None => inl (Message "❌ No input provided (paste text or upload a PDF)." 400)
  | Some uploaded =>
      if negb (PyStr.nonempty (filename uploaded))
      then inl (Message "❌ No input provided (paste text or upload a PDF)." 400)
      else if negb (PyStr.endswith ".pdf" (PyStr.lower (filename uploaded)))
      then inl (Message "❌ Only PDF files are allowed." 400)
      else
        let pdf_bytes := content uploaded in
        match pdf_bytes with
        | [] => inl (Message "❌ Uploaded file is empty." 400)
        | _ :: _ =>
            let input_text := read_pdf_from_bytes pdf_bytes in
            if PyStr.startswith "[ERROR]" input_text
            then inl (Message ("❌ PDF processing failed: " ++ input_text) 400)
            else inr input_text
        end
  end.

(** The part of a POST that follows the choice of [input_text]. *)
Definition analyse (input_text : string) : Response * list Call :=
  if negb (PyStr.nonempty input_text)
  then (Message "❌ No text could be extracted from the input." 400, [])
  else
    let word_count := word_count_of input_text in
    if (word_count <? 5)%nat
    then (Message ("❌ Input text is too short. Please provide at least 5 words for meaningful analysis. Current: "
                   ++ PyStr.of_nat word_count ++ " words.") 400, [])
    else
      let text := text_after_judgment input_text in
      match modellog_predict rt text with
      | Raises e =>
          (Message ("❌ Error in category prediction: " ++ e) 500,
           [Predict text])
      | Returns predicted_category =>
          match retrieve text with
          | SearchError e =>
              (Message ("❌ Error in semantic search: " ++ e) 500,
               [Predict text; Encode text])
          | LookupError => (Unhandled, [Predict text; Encode text])
          | Retrieved results =>
              (Rendered [] (Some results) (Some predicted_category)
                        (Some text),
               [Predict text; Encode text])
          end
      end.

(** The view [index]: the response and the model calls made on the way.
    The second [if request.method == "GET"] of the source cannot be
    reached and is left out; a HEAD request skips both tests. *)
Definition index (request : Request) : Response * list Call :=
  match method request with
  | GET => (Rendered no_cache_headers None None None, [])
  | HEAD => (Rendered [] None None None, [])
  | POST =>
      let input_text :=
        PyStr.strip (match text_input request with
                     | Some t => t
                     | None => ""
                     end) in
      if PyStr.nonempty input_text
      then analyse input_text
      else match text_from_upload request with
           | inl response => (response, [])
           | inr extracted_text => analyse extracted_text
           end
  end.

(** *** [get_legal_explanation] *)

(** The loop [for attempt in range(max_retries)], from [attempt] on,
    with [remaining] iterations left. *)
Fixpoint attempts (generate_content : nat -> Prompt -> Generation)
    (prompt : Prompt) (chunks : list json) (max_retries : nat)
    (remaining attempt : nat) : ExplanationResult :=
  match remaining with
  | O => failure "Failed to get response from AI service"
  | S remaining' =>
      match generate_content attempt prompt with
      | Generated text =>
          if PyStr.nonempty text
          then {| answer := Some (PyStr.strip text);
                  sources := cited_cases chunks;
                  error := None |}
          else failure "No response generated from AI model"
      | Failed error_str =>
          if (attempt =? max_retries - 1)%nat
          then classify_error max_retries error_str
          else attempts generate_content prompt chunks max_retries
                        remaining' (S attempt)
      end
  end.

Definition get_legal_explanation (question : string) (context_chunks : json)
    (max_retries : nat) : Exception + ExplanationResult :=
  match gemini_model rt with
  | None =>
      inr (failure "❌ AI service temporarily unavailable due to quota limits. Please try again later or use the search functionality to find relevant legal cases.")
  | Some generate_content =>
      let no_context :=
        {| error := None;
           answer := Some "I can help explain legal concepts in simple terms, but I need some context from legal cases to provide accurate information. Please use the main search form first to find relevant cases, then ask me specific questions about them.";
           sources := [] |} in
      if negb (Py.truthy context_chunks) then inr no_context
      else
        match Py.len context_chunks with
        | inl e => inl e
        | inr O => inr no_context
        | inr (S _) =>
            match Py.iterate context_chunks with
            | inl e => inl e
            | inr chunks =>
                match chunk_entries chunks with
                | inl e => inl e
                | inr entries =>
                    let prompt :=
                      {| template := choose_template question;
                         context := entries;
                         user_question := question |} in
                    inr (attempts generate_content prompt chunks
                                  max_retries max_retries 0)
                end
            end
        end
  end.

(** *** [chat] *)

(** The body of the [try]: a reply, or the exception that leaves it. *)
Definition chat_body (request_json : result json) : Exception + ChatReply :=
  match request_json with
  | Raises e => inl (External e)
  | Returns data =>
      if negb (Py.truthy data)
      then inr (refuse (Literal "Missing 'question' in request data") 400)
      else
        match Py.contains_str "question" data with
        | inl e => inl e
        | inr false =>
            inr (refuse (Literal "Missing 'question' in request data") 400)
        | inr true =>
            match Py.getitem_str data "question" with
            | inl e => inl e
            | inr (JStr raw_question) =>
                let question := PyStr.strip raw_question in
                if negb (PyStr.nonempty question)
                then inr (refuse (Literal "Question cannot be empty") 400)
                else
                  let context_chunks :=
                    match data with
                    | JObj members => Py.dict_get members "context" (JArr [])
                    | _ => JArr []
                    end in
                  match Py.len context_chunks with
                  | inl e => inl e
                  | inr _ =>
                      if negb (Py.truthy context_chunks)
                      then
                        if is_greeting question
                        then inr (canned greeting_message)
                        else inr (canned guidance_message)
                      else
                        match get_legal_explanation question
                                context_chunks 3 with
                        | inl e => inl e
                        | inr result =>
                            match error result with
                            | Some message =>
                                if PyStr.nonempty message
                                then inr (refuse (Literal message) 500)
                                else inr {| success := true;
                                            response := answer result;
                                            reply_error := None;
                                            reply_sources :=
                                              Some (sources result);
                                            status := 200 |}
                            | None =>
                                inr {| success := true;
                                       response := answer result;
                                       reply_error := None;
                                       reply_sources := Some (sources result);
                                       status := 200 |}
                            end
                        end
                  end
            | inr _ => inl AttributeError
            end
        end
  end.

(** The view [chat]: the outer [except Exception] turns whatever left
    the body into a 500 reply. *)
Definition chat (request_json : result json) : ChatReply :=
  match chat_body request_json with
  | inr reply => reply
  | inl e => refuse (ChatbotError e) 500
  end.

End App.

(** ** Two sorts that meet the contract of [np.argsort]

    Both insert the indices one by one into a list kept in key order; an
    index goes in front of the indices whose key is not smaller. Started
    from the indices in ascending order this is a stable sort; started
    from the indices in descending order, equal keys come out with the
    higher index first. Neither is NumPy's sort: they are two of the
    sorts that the contract allows, and they differ only on equal keys. *)

Fixpoint insert_index (keys : list Z) (i : nat) (sorted : list nat)
    : list nat :=
  match sorted with
  | [] => [i]
  | j :: rest =>
      if (key_at keys i <=? key_at keys j)%Z
      then i :: sorted
      else j :: insert_index keys i rest
  end.

Definition sort_indices (keys : list Z) (indices : list nat) : list nat :=
  fold_right (insert_index keys) [] indices.

Definition argsort_stable (keys : list Z) : list nat :=
  sort_indices keys (seq 0 (length keys)).

Definition argsort_last_first (keys : list Z) : list nat :=
  sort_indices keys (List.rev (seq 0 (length keys))).

(** ** Vocabulary of the statements *)

(** [sub] occurs in [s] at position [p]. *)
Definition occurs_at (sub s : string) (p : nat) : Prop :=
  exists before after,
    s = (before ++ sub ++ after)%string /\ String.length before = p.

(** No occurrence before [p], as a test that computes. *)
Definition none_before (sub s : string) (p : nat) : bool :=
  forallb (fun q => negb (PyStr.startswith sub (PyStr.drop q s))) (seq 0 p).

(** The property C2 asks of a ranking [top] over [cos_scores]: of two
    returned entries with equal score the one with the lower corpus index
    comes first, and an entry left out never has the score of a returned
    entry with a higher index. *)
Definition ties_by_index (cos_scores : list Z) (top : list nat) : Prop :=
  (forall a b i j,
      nth_error top a = Some i -> nth_error top b = Some j -> a < b ->
      nth i cos_scores 0%Z = nth j cos_scores 0%Z -> i < j)
  /\ (forall i k,
         In i top -> k < length cos_scores -> ~ In k top ->
         nth k cos_scores 0%Z = nth i cos_scores 0%Z -> i < k).

(** Pasted text is present when something is left of the form field
    after [strip()]; a file is present when one was sent with a name. *)
Definition pasted_text (request : Request) : string :=
  PyStr.strip (match text_input request with
               | Some t => t
               | None => ""
               end).

Definition text_present (request : Request) : bool :=
  PyStr.nonempty (pasted_text request).

Definition file_present (request : Request) : bool :=
  match file request with
  | Some uploaded => PyStr.nonempty (filename uploaded)
  | None => false
  end.

(** [np.argsort] of the application meets its contract. *)
Definition argsort_ok (rt : Runtime) : Prop :=
  forall keys, is_argsort keys (argsort rt keys).

(** The three arrays of the corpus have one entry per judgment. *)
Definition aligned (rt : Runtime) : Prop :=
  length (case_names rt) = length (embeddings rt)
  /\ length (judgment_texts rt) = length (embeddings rt).

(** Exactly one of [answer] and [error] is set. *)
Definition answer_xor_error (r : ExplanationResult) : Prop :=
  (answer r <> None /\ error r = None)
  \/ (answer r = None /\ error r <> None).

(** ** A small installation, used in the examples

    Six judgments with one-dimensional embeddings; the encoder maps a
    text to its length and refuses the empty text; the similarity of two
    embeddings is minus their distance. *)

Definition demo_texts : list string :=
  ["JUDGMENT The appeal is allowed with costs.";
   "JUDGMENT The writ petition is dismissed.";
   String.concat " " (repeat "The respondent is directed to comply." 20);
   "JUDGMENT Bail is granted.";
   "ORDER The matter is adjourned.";
   "JUDGMENT The conviction is set aside."].

Definition demo_names : list string :=
  ["A v. State"; "B v. Union"; "C v. D"; "E v. State"; "In re F"; "G v. H"].

Definition demo_embeddings : list Z := [30; 90; 40; 90; 10; 70]%Z.

Definition demo_encode (text : string) : result Z :=
  if PyStr.nonempty text
  then Returns (Z.of_nat (String.length text))
  else Raises "empty text".

Definition demo_predict (text : string) : result string :=
  Returns "Civil".

Definition demo_cos_sim (query row : Z) : Z := (- Z.abs (query - row))%Z.

(** Two parsers told apart by the first byte of the buffer. On byte 1
    the primary parser reads one page; on byte 2 it reads one page and
    raises on the next, and the secondary parser reads both pages; on
    byte 3 the primary parser finds text on the second page only; on
    anything else both raise. *)
Definition demo_pdfplumber (file_bytes : list Byte.byte) : PdfRun :=
  match file_bytes with
  | Byte.x01 :: _ =>
      {| extracted := [Some "[ERROR] codes are listed in the annexure to this order."];
         raised := None |}
  | Byte.x02 :: _ =>
      {| extracted := [Some "Cover page"]; raised := Some "bad content stream" |}
  | Byte.x03 :: _ =>
      {| extracted := [None; Some "Scanned exhibit"]; raised := None |}
  | _ => {| extracted := []; raised := Some "not a PDF" |}
  end.

Definition demo_PyPDF2 (file_bytes : list Byte.byte) : PdfRun :=
  match file_bytes with
  | Byte.x02 :: _ =>
      {| extracted := [Some "Cover page"; Some "JUDGMENT The appeal is allowed."];
         raised := None |}
  | _ => {| extracted := []; raised := Some "EOF marker not found" |}
  end.

(** A provider that fails twice and then answers. *)
Definition demo_provider (attempt : nat) (prompt : Prompt) : Generation :=
  if (attempt <? 2)%nat then Failed "503 service unavailable"
  else Generated "  The court allowed the appeal. [A v. State]  ".

(** The installation, with the sort and the model left open. *)
Definition demo_with (sort : list Z -> list nat)
    (llm : option (nat -> Prompt -> Generation)) : Runtime :=
  {| pdfplumber_open := demo_pdfplumber;
     PyPDF2_PdfReader := demo_PyPDF2;
     Embedding := Z;
     judgment_texts := demo_texts;
     case_names := demo_names;
     embeddings := demo_embeddings;
     model_encode := demo_encode;
     modellog_predict := demo_predict;
     cos_sim := demo_cos_sim;
     argsort := sort;
     gemini_model := llm |}.

Definition demo : Runtime := demo_with argsort_stable (Some demo_provider).

Definition demo_offline : Runtime := demo_with argsort_stable None.

Definition demo_last_first : Runtime :=
  demo_with argsort_last_first (Some demo_provider).

(** Requests used in the examples. *)
Definition short_paste : Request :=
  {| method := POST; text_input := Some "   appeal  allowed "; file := None |}.

Definition short_upload : Request :=
  {| method := POST;
     text_input := None;
     file := Some {| filename := "exhibit.pdf";
                     content := [Byte.x03; Byte.x50] |} |}.

Definition blank_post : Request :=
  {| method := POST; text_input := Some "  "; file := None |}.

Definition paste_only : Request :=
  {| method := POST;
     text_input := Some "The appeal against conviction is allowed";
     file := None |}.

Definition paste_and_upload : Request :=
  {| method := POST;
     text_input := Some "The appeal against conviction is allowed";
     file := Some {| filename := "order.pdf";
                     content := [Byte.x02; Byte.x50] |} |}.

Definition error_upload : Request :=
  {| method := POST;
     text_input := None;
     file := Some {| filename := "Annexure.PDF"; content := [Byte.x01] |} |}.

(** The scores of four judgments, the last two of them equal. *)
Definition tied_scores : list Z := [875; 750; 1000; 1000]%Z.

(** ** Start-up: the Gemini client *)

(** The module-level block that sets [gemini_model]: the key must be
    set and not empty, [genai.configure] and the constructor of the
    first model name must both return; every other case leaves
    [gemini_model] at [None]. *)
Definition model_names : list string := ["gemini-1.5-flash"; "gemini-1.5-pro"].

Definition init_gemini {Model : Type} (GEMINI_API_KEY : option string)
    (configure : string -> result unit)
    (GenerativeModel : string -> result Model) : option Model :=
  match GEMINI_API_KEY with
  | Some key =>
      if PyStr.nonempty key
      then match configure key with
           | Raises _ => None
           | Returns _ =>
               match GenerativeModel (nth 0 model_names "") with
               | Returns gemini_model => Some gemini_model
               | Raises _ => None
               end
           end
      else None
  | None => None
  end.

(** ** Further vocabulary *)

(** Every character of [s] is white space. *)
Fixpoint all_space (s : string) : bool :=
  match s with
  | EmptyString => true
  | String c s' => PyStr.is_space c && all_space s'
  end.

(** No character of [s] is white space. *)
Fixpoint no_space (s : string) : bool :=
  match s with
  | EmptyString => true
  | String c s' => negb (PyStr.is_space c) && no_space s'
  end.

(** The length of the text part of a context entry, when it has one. *)
Definition body_size (body : json) : nat :=
  match body with
  | JStr s => String.length s
  | JArr items => length items
  | _ => 0
  end.

(** A chat request body with a question and a context. *)
Definition chat_request (question : string) (context_chunks : json) : json :=
  JObj [("question", JStr question); ("context", context_chunks)].

(** ** Further examples *)

(** A provider that raises at every call, and one that answers like
    [demo_provider] for three calls and differs afterwards. *)
Definition demo_failing (attempt : nat) (prompt : Prompt) : Generation :=
  Failed ("429 quota exceeded, call " ++ PyStr.of_nat attempt).

Definition demo_late (attempt : nat) (prompt : Prompt) : Generation :=
  if (attempt <? 3)%nat then demo_provider attempt prompt
  else Generated "a later answer".

Definition demo_down : Runtime := demo_with argsort_stable (Some demo_failing).

Definition demo_late_runtime : Runtime :=
  demo_with argsort_stable (Some demo_late).

(** A chunk as the results page hands it to the chat. *)
Definition demo_chunk : json :=
  JObj [("case", JStr "A v. State");
        ("score", JNum 970);
        ("preview", JStr "JUDGMENT The appeal");
        ("full_text", JStr "JUDGMENT The appeal is allowed with costs.")].

(** The installation with only two of its six case names loaded. *)
Definition demo_short_names : Runtime :=
  {| pdfplumber_open := demo_pdfplumber;
     PyPDF2_PdfReader := demo_PyPDF2;
     Embedding := Z;
     judgment_texts := demo_texts;
     case_names := ["A v. State"; "B v. Union"];
     embeddings := demo_embeddings;
     model_encode := demo_encode;
     modellog_predict := demo_predict;
     cos_sim := demo_cos_sim;
     argsort := argsort_stable;
     gemini_model := None |}.

(** An installation whose parsers read no text from any file and do
    not raise, as on a scanned document. *)
Definition demo_scanned : Runtime :=
  {| pdfplumber_open := fun _ => {| extracted := [None; None]; raised := None |};
     PyPDF2_PdfReader := fun _ => {| extracted := [Some ""]; raised := None |};
     Embedding := Z;
     judgment_texts := demo_texts;
     case_names := demo_names;
     embeddings := demo_embeddings;
     model_encode := demo_encode;
     modellog_predict := demo_predict;
     cos_sim := demo_cos_sim;
     argsort := argsort_stable;
     gemini_model := None |}.

Definition upload_of (name : string) (bytes : list Byte.byte) : Request :=
  {| method := POST;
     text_input := Some "  ";
     file := Some {| filename := name; content := bytes |} |}.

(** * Properties *)

(** ** Strings *)

Lemma take_drop (n : nat) (s : string) :
  (PyStr.take n s ++ PyStr.drop n s)%string = s.
Proof.
  revert s; induction n as [|n IH]; intros [|c s]; simpl; try reflexivity.
  now rewrite IH.
Qed.

Lemma length_take (n : nat) (s : string) :
  String.length (PyStr.take n s) = Nat.min n (String.length s).
Proof.
  revert s; induction n as [|n IH]; intros [|c s]; simpl; try reflexivity.
  now rewrite IH.
Qed.

Lemma take_all (n : nat) (s : string) :
  String.length s <= n -> PyStr.take n s = s.
Proof.
  revert s; induction n as [|n IH]; intros [|c s]; simpl; intros H;
    try reflexivity; try lia.
  rewrite IH by lia. reflexivity.
Qed.

Lemma startswith_append (p s : string) :
  PyStr.startswith p s = true <-> exists rest, s = (p ++ rest)%string.
Proof.
  revert s; induction p as [|a p IH]; intros s; simpl.
  - split; [intros _; now exists s | reflexivity].
  - destruct s as [|b s].
    + split; [discriminate | intros [rest H]; discriminate].
    + rewrite andb_true_iff, Ascii.eqb_eq, IH. split.
      * intros [-> [rest ->]]. now exists rest.
      * intros [rest H]. injection H as -> ->. split; [reflexivity | now exists rest].
Qed.

Lemma occurs_at_head (sub s : string) :
  occurs_at sub s 0 <-> PyStr.startswith sub s = true.
Proof.
  rewrite startswith_append. split.
  - intros (before & after & -> & Hlen).
    destruct before; [now exists after | discriminate].
  - intros [rest ->]. exists EmptyString, rest. split; reflexivity.
Qed.

Lemma occurs_at_tail (sub : string) (c : ascii) (s : string) (p : nat) :
  occurs_at sub (String c s) (S p) <-> occurs_at sub s p.
Proof.
  split.
  - intros (before & after & H & Hlen).
    destruct before as [|b before]; [discriminate|].
    simpl in H, Hlen. injection H as -> ->.
    exists before, after. split; [reflexivity | lia].
  - intros (before & after & -> & Hlen).
    exists (String c before), after. split; [reflexivity | simpl; lia].
Qed.

Lemma occurs_at_empty (sub : string) (p : nat) :
  ~ occurs_at sub EmptyString (S p).
Proof.
  intros (before & after & H & Hlen). destruct before; discriminate.
Qed.

(** A test of [occurs_at] that computes. *)
Lemma occurs_at_drop (sub s : string) (p : nat) :
  occurs_at sub s p <->
  p <= String.length s /\ PyStr.startswith sub (PyStr.drop p s) = true.
Proof.
  revert s; induction p as [|p IH]; intros s.
  - rewrite occurs_at_head. simpl. split; [intros H; split; [lia | exact H] | tauto].
  - destruct s as [|c s].
    + split; [intros H; now apply occurs_at_empty in H | simpl; lia].
    + rewrite occurs_at_tail, IH. simpl. split; intros [H1 H2]; split; (lia || exact H2).
Qed.

(** [find_from] returns the offset of the first occurrence, counted from
    [i], or [-1]. *)
Lemma find_from_spec (sub s : string) (i : Z) :
  (0 <= i)%Z ->
  (PyStr.find_from sub s i = (-1)%Z /\ forall p, ~ occurs_at sub s p)
  \/ (exists p, PyStr.find_from sub s i = (i + Z.of_nat p)%Z
                /\ occurs_at sub s p
                /\ forall q, q < p -> ~ occurs_at sub s q).
Proof.
  revert i; induction s as [|c s IH]; intros i Hi; simpl.
  - destruct (PyStr.startswith sub EmptyString) eqn:E.
    + right. exists 0. rewrite Z.add_0_r. repeat split.
      * now apply occurs_at_head.
      * intros q Hq; lia.
    + left. split; [reflexivity|]. intros [|p] H.
      * apply occurs_at_head in H. congruence.
      * now apply occurs_at_empty in H.
  - destruct (PyStr.startswith sub (String c s)) eqn:E.
    + right. exists 0. rewrite Z.add_0_r. repeat split.
      * now apply occurs_at_head.
      * intros q Hq; lia.
    + destruct (IH (i + 1)%Z ltac:(lia)) as [[Hf Hno] | (p & Hf & Hocc & Hmin)].
      * left. split; [exact Hf|]. intros [|p] H.
        -- apply occurs_at_head in H. congruence.
        -- apply occurs_at_tail in H. now apply (Hno p).
      * right. exists (S p). repeat split.
        -- rewrite Hf. lia.
        -- now apply occurs_at_tail.
        -- intros [|q] Hq H.
           ++ apply occurs_at_head in H. congruence.
           ++ apply occurs_at_tail in H. apply (Hmin q); [lia | exact H].
Qed.

Lemma first_occurrence_unique (sub s : string) (p q : nat) :
  occurs_at sub s p -> (forall r, r < p -> ~ occurs_at sub s r) ->
  occurs_at sub s q -> (forall r, r < q -> ~ occurs_at sub s r) ->
  p = q.
Proof.
  intros Hp Hpmin Hq Hqmin.
  destruct (Nat.lt_trichotomy p q) as [H | [H | H]].
  - exfalso. now apply (Hqmin p).
  - exact H.
  - exfalso. now apply (Hpmin q).
Qed.

Lemma find_absent (s sub : string) :
  PyStr.find s sub = (-1)%Z -> forall p, ~ occurs_at sub s p.
Proof.
  unfold PyStr.find. intros H.
  destruct (find_from_spec sub s 0 ltac:(lia)) as [[_ Hno] | (p & Hf & _)].
  - exact Hno.
  - rewrite Hf in H. lia.
Qed.

Lemma none_before_sound (sub s : string) (p : nat) :
  none_before sub s p = true -> forall q, q < p -> ~ occurs_at sub s q.
Proof.
  unfold none_before. rewrite forallb_forall. intros H q Hq Hocc.
  apply occurs_at_drop in Hocc as [_ Hocc].
  specialize (H q). rewrite in_seq in H.
  rewrite Hocc in H. specialize (H ltac:(lia)). discriminate.
Qed.

(** ** C3: truncation at the marker *)

(** C3. If the marker "JUDGMENT" occurs in the input with first
    occurrence at position [p], the analysed text is the input from [p]
    to its end; if the marker does not occur, the analysed text is the
    input unchanged. The match is on the exact characters of the marker. *)
Theorem text_after_judgment_truncates (input_text : string) :
  (forall p,
      occurs_at "JUDGMENT" input_text p ->
      (forall q, q < p -> ~ occurs_at "JUDGMENT" input_text q) ->
      text_after_judgment input_text = PyStr.drop p input_text)
  /\ ((forall p, ~ occurs_at "JUDGMENT" input_text p) ->
      text_after_judgment input_text = input_text).
Proof.
  unfold text_after_judgment, PyStr.find.
  destruct (find_from_spec "JUDGMENT" input_text 0 ltac:(lia))
    as [[Hf Hno] | (p0 & Hf & Hocc & Hmin)]; rewrite Hf; split.
  - intros p Hp _. now apply Hno in Hp.
  - reflexivity.
  - intros p Hp Hpmin.
    assert (p0 = p) as -> by (eapply first_occurrence_unique; eauto).
    replace (negb (0 + Z.of_nat p =? -1)%Z) with true
      by (symmetry; apply negb_true_iff, Z.eqb_neq; lia).
    unfold PyStr.slice_from.
    replace (0 + Z.of_nat p <? 0)%Z with false
      by (symmetry; apply Z.ltb_ge; lia).
    now rewrite Z.add_0_l, Nat2Z.id.
  - intros Hno. now apply Hno in Hocc.
Qed.

Lemma text_after_judgment_truncates_witness :
  text_after_judgment "IN THE HIGH COURT JUDGMENT The appeal is allowed. JUDGMENT ends."
  = "JUDGMENT The appeal is allowed. JUDGMENT ends."
  /\ text_after_judgment "the judgment of the court below" = "the judgment of the court below".
Proof.
  split.
  - rewrite (proj1 (text_after_judgment_truncates _) 18).
    + reflexivity.
    + apply occurs_at_drop. split; [simpl; lia | reflexivity].
    + apply none_before_sound. reflexivity.
  - apply (proj2 (text_after_judgment_truncates _)).
    apply find_absent. reflexivity.
Defined.

(** ** Sorting *)

Lemma insert_index_perm (keys : list Z) (i : nat) (l : list nat) :
  Permutation (insert_index keys i l) (i :: l).
Proof.
  induction l as [|j l IH]; simpl.
  - apply Permutation_refl.
  - destruct (key_at keys i <=? key_at keys j)%Z.
    + apply Permutation_refl.
    + eapply perm_trans; [apply perm_skip, IH | apply perm_swap].
Qed.

Lemma insert_index_sorted (keys : list Z) (i : nat) (l : list nat) :
  StronglySorted (keys_ascend keys) l ->
  StronglySorted (keys_ascend keys) (insert_index keys i l).
Proof.
  induction 1 as [|j l Hs IH Hall]; simpl.
  - constructor; constructor.
  - destruct (key_at keys i <=? key_at keys j)%Z eqn:E.
    + apply Z.leb_le in E. constructor.
      * now constructor.
      * constructor; [exact E|].
        eapply Forall_impl; [|exact Hall].
        unfold keys_ascend. intros k Hk. lia.
    + apply Z.leb_gt in E. constructor; [exact IH|].
      eapply Permutation_Forall.
      * apply Permutation_sym, insert_index_perm.
      * constructor; [unfold keys_ascend; lia | exact Hall].
Qed.

Lemma sort_indices_perm (keys : list Z) (indices : list nat) :
  Permutation (sort_indices keys indices) indices.
Proof.
  induction indices as [|i l IH]; simpl.
  - constructor.
  - eapply perm_trans; [apply insert_index_perm | now apply perm_skip].
Qed.

Lemma sort_indices_sorted (keys : list Z) (indices : list nat) :
  StronglySorted (keys_ascend keys) (sort_indices keys indices).
Proof.
  induction indices as [|i l IH]; simpl.
  - constructor.
  - now apply insert_index_sorted.
Qed.

Lemma argsort_stable_ok (keys : list Z) : is_argsort keys (argsort_stable keys).
Proof.
  split; [apply sort_indices_perm | apply sort_indices_sorted].
Qed.

Lemma argsort_last_first_ok (keys : list Z) :
  is_argsort keys (argsort_last_first keys).
Proof.
  split; [|apply sort_indices_sorted].
  eapply perm_trans; [apply sort_indices_perm|].
  apply Permutation_sym, Permutation_rev.
Qed.

Lemma StronglySorted_app_inv {A : Type} (R : A -> A -> Prop) (l1 l2 : list A) :
  StronglySorted R (l1 ++ l2) ->
  StronglySorted R l1 /\ forall x y, In x l1 -> In y l2 -> R x y.
Proof.
  induction l1 as [|a l1 IH]; simpl; intros H.
  - split; [constructor | intros x y []].
  - inversion H as [|? ? Hs Hall]; subst.
    destruct (IH Hs) as [Hs1 Hcross]. split.
    + constructor; [exact Hs1|].
      apply Forall_app in Hall. tauto.
    + intros x y [<- | Hx] Hy.
      * rewrite Forall_forall in Hall. apply Hall, in_or_app. now right.
      * now apply Hcross.
Qed.

Lemma In_firstn {A : Type} (n : nat) (l : list A) (x : A) :
  In x (firstn n l) -> In x l.
Proof.
  intros H. rewrite <- (firstn_skipn n l). apply in_or_app. now left.
Qed.

Lemma StronglySorted_firstn {A : Type} (R : A -> A -> Prop) (n : nat)
    (l : list A) :
  StronglySorted R l -> StronglySorted R (firstn n l).
Proof.
  intros H. rewrite <- (firstn_skipn n l) in H.
  now apply StronglySorted_app_inv in H.
Qed.

Lemma StronglySorted_map {A B : Type} (R : A -> A -> Prop)
    (Q : B -> B -> Prop) (f : A -> B) (l : list A) :
  (forall x y, In x l -> In y l -> R x y -> Q (f x) (f y)) ->
  StronglySorted R l -> StronglySorted Q (map f l).
Proof.
  intros Hf H. induction H as [|a l Hs IH Hall]; simpl.
  - constructor.
  - constructor.
    + apply IH. intros x y Hx Hy. apply Hf; now right.
    + apply Forall_map. rewrite Forall_forall in *.
      intros y Hy. apply Hf; [now left | now right | now apply Hall].
Qed.

(** ** Retrieval *)

Section RetrievalFacts.

Variable rt : Runtime.

Hypothesis argsort_contract : argsort_ok rt.

Lemma top_results_length (cos_scores : list Z) :
  length (top_results rt cos_scores) = Nat.min 5 (length cos_scores).
Proof.
  unfold top_results. rewrite length_firstn.
  destruct (argsort_contract (map Z.opp cos_scores)) as [Hperm _].
  apply Permutation_length in Hperm.
  now rewrite Hperm, length_seq, length_map.
Qed.

Lemma top_results_in_range (cos_scores : list Z) (i : nat) :
  In i (top_results rt cos_scores) -> i < length cos_scores.
Proof.
  unfold top_results. intros Hin.
  destruct (argsort_contract (map Z.opp cos_scores)) as [Hperm _].
  apply In_firstn in Hin.
  apply (Permutation_in _ Hperm), in_seq in Hin.
  rewrite length_map in Hin. lia.
Qed.

Lemma top_results_NoDup (cos_scores : list Z) : NoDup (top_results rt cos_scores).
Proof.
  unfold top_results.
  destruct (argsort_contract (map Z.opp cos_scores)) as [Hperm _].
  assert (NoDup (argsort rt (map Z.opp cos_scores))) as Hnd.
  { eapply Permutation_NoDup; [apply Permutation_sym, Hperm | apply seq_NoDup]. }
  rewrite <- (firstn_skipn 5) in Hnd. now apply NoDup_app_remove_r in Hnd.
Qed.

Lemma key_at_opp (cos_scores : list Z) (i : nat) :
  key_at (map Z.opp cos_scores) i = (- nth i cos_scores 0)%Z.
Proof.
  unfold key_at. now rewrite <- (map_nth Z.opp).
Qed.

(** Scores never increase along the ranking. *)
Lemma top_results_descending (cos_scores : list Z) :
  StronglySorted Z.ge (map (fun i => nth i cos_scores 0%Z) (top_results rt cos_scores)).
Proof.
  destruct (argsort_contract (map Z.opp cos_scores)) as [_ Hsorted].
  apply (StronglySorted_firstn _ 5) in Hsorted.
  eapply StronglySorted_map; [|exact Hsorted].
  intros x y _ _. unfold keys_ascend. rewrite !key_at_opp. lia.
Qed.

(** Every entry left out scores no higher than every entry returned. *)
Lemma top_results_best (cos_scores : list Z) (i k : nat) :
  In i (top_results rt cos_scores) -> k < length cos_scores ->
  ~ In k (top_results rt cos_scores) ->
  (nth k cos_scores 0 <= nth i cos_scores 0)%Z.
Proof.
  unfold top_results. intros Hi Hk Hnot.
  destruct (argsort_contract (map Z.opp cos_scores)) as [Hperm Hsorted].
  assert (In k (argsort rt (map Z.opp cos_scores))) as Hin.
  { apply (Permutation_in _ (Permutation_sym Hperm)), in_seq.
    rewrite length_map. lia. }
  rewrite <- (firstn_skipn 5) in Hin, Hsorted.
  apply in_app_or in Hin as [Hin | Hin]; [contradiction|].
  apply StronglySorted_app_inv in Hsorted as [_ Hcross].
  specialize (Hcross i k Hi Hin). unfold keys_ascend in Hcross.
  rewrite !key_at_opp in Hcross. lia.
Qed.

(** The loop adds one entry per index, in order, when every index is
    inside the three arrays. *)
Lemma build_results_total (cos_scores : list Z) (top : list nat) :
  (forall i, In i top ->
             i < length (case_names rt) /\ i < length cos_scores
             /\ i < length (judgment_texts rt)) ->
  forall results, exists added,
    build_results rt cos_scores top results = Some (results ++ added)
    /\ map score added = map (fun i => nth i cos_scores 0%Z) top
    /\ map rank added = seq (length results + 1) (length top).
Proof.
  induction top as [|idx top IH]; intros Hrange results; simpl.
  - exists []. now rewrite app_nil_r.
  - destruct (Hrange idx (or_introl eq_refl)) as (Hn & Hs & Ht).
    destruct (nth_error (case_names rt) idx) as [name|] eqn:En;
      [|apply nth_error_None in En; lia].
    destruct (nth_error cos_scores idx) as [s|] eqn:Es;
      [|apply nth_error_None in Es; lia].
    destruct (nth_error (judgment_texts rt) idx) as [txt|] eqn:Et;
      [|apply nth_error_None in Et; lia].
    edestruct (IH (fun i H => Hrange i (or_intror H))) as (added & Hb & Hsc & Hrk).
    rewrite Hb. eexists (_ :: added). rewrite <- app_assoc. simpl.
    split; [reflexivity|]. split.
    + f_equal; [|exact Hsc]. symmetry. now apply nth_error_nth.
    + f_equal. rewrite Hrk, length_app. simpl. f_equal. lia.
Qed.

(** Whatever the loop adds has its preview cut from its full text. *)
Lemma build_results_preview (cos_scores : list Z) (top : list nat) :
  forall results out,
    build_results rt cos_scores top results = Some out ->
    (forall r, In r results -> preview r = PyStr.take 500 (full_text r)) ->
    forall r, In r out -> preview r = PyStr.take 500 (full_text r).
Proof.
  induction top as [|idx top IH]; simpl; intros results out Hb Hres.
  - injection Hb as <-. exact Hres.
  - destruct (nth_error (case_names rt) idx); [|discriminate].
    destruct (nth_error cos_scores idx); [|discriminate].
    destruct (nth_error (judgment_texts rt) idx); [|discriminate].
    apply (IH _ _ Hb). intros r Hin.
    apply in_app_or in Hin as [Hin | [<- | []]]; [now apply Hres | reflexivity].
Qed.

(** ** C1: size and order of the ranking *)

(** C1. On a corpus whose three arrays have one entry per judgment, a
    query that the encoder accepts is answered with exactly
    [min 5 |corpus|] results, so five when the corpus has at least five
    entries and the whole corpus otherwise, with scores in non-increasing
    order and ranks 1, 2, ... *)
Theorem retrieve_top_five (text : string) (query_embedding : Embedding rt) :
  aligned rt ->
  model_encode rt text = Returns query_embedding ->
  exists results,
    retrieve rt text = Retrieved results
    /\ length results = Nat.min 5 (length (embeddings rt))
    /\ (5 <= length (embeddings rt) -> length results = 5)
    /\ (length (embeddings rt) < 5 -> length results = length (embeddings rt))
    /\ StronglySorted Z.ge (map score results)
    /\ map rank results = seq 1 (length results).
Proof.
  intros [Hnames Htexts] Henc.
  unfold retrieve, semantic_search. rewrite Henc.
  set (cos_scores := map (cos_sim rt query_embedding) (embeddings rt)).
  assert (length cos_scores = length (embeddings rt)) as Hlen
    by apply length_map.
  destruct (build_results_total cos_scores (top_results rt cos_scores))
    with (results := @nil RankedResult)
    as (added & Hb & Hscore & Hrank).
  { intros i Hi. apply top_results_in_range in Hi. lia. }
  simpl in Hb. rewrite Hb. exists added.
  assert (length added = Nat.min 5 (length (embeddings rt))) as Hsize.
  { rewrite <- (length_map score), Hscore, length_map,
      top_results_length, Hlen. reflexivity. }
  split; [reflexivity|]. split; [exact Hsize|].
  split; [lia|]. split; [lia|]. split.
  - rewrite Hscore. apply top_results_descending.
  - rewrite Hrank. simpl. f_equal.
    now rewrite <- (length_map score added), Hscore, length_map.
Qed.

(** ** C2: ties *)

(** C2, as the code has it. The ranking lists distinct corpus entries,
    scores never increase along it, and every entry it leaves out scores
    no higher than every entry it keeps. Which of several entries with
    one score comes first, or passes the cut, is left to [np.argsort]. *)
Theorem ranking_orders_scores_only (cos_scores : list Z) :
  let top := top_results rt cos_scores in
  NoDup top
  /\ (forall i, In i top -> i < length cos_scores)
  /\ StronglySorted Z.ge (map (fun i => nth i cos_scores 0%Z) top)
  /\ (forall i k,
         In i top -> k < length cos_scores -> ~ In k top ->
         (nth k cos_scores 0 <= nth i cos_scores 0)%Z).
Proof.
  repeat split.
  - apply top_results_NoDup.
  - apply top_results_in_range.
  - apply top_results_descending.
  - apply top_results_best.
Qed.

End RetrievalFacts.

Lemma retrieve_top_five_witness :
  exists results,
    retrieve demo "The appeal against the conviction" = Retrieved results
    /\ length results = Nat.min 5 (length (embeddings demo))
    /\ (5 <= length (embeddings demo) -> length results = 5)
    /\ (length (embeddings demo) < 5 ->
        length results = length (embeddings demo))
    /\ StronglySorted Z.ge (map score results)
    /\ map rank results = seq 1 (length results).
Proof.
  apply (retrieve_top_five demo argsort_stable_ok
           "The appeal against the conviction" 33%Z).
  - split; reflexivity.
  - reflexivity.
Defined.

Lemma ranking_orders_scores_only_witness :
  let top := top_results demo_last_first tied_scores in
  NoDup top
  /\ (forall i, In i top -> i < 4)
  /\ StronglySorted Z.ge (map (fun i => nth i tied_scores 0%Z) top)
  /\ (forall i k,
         In i top -> k < 4 -> ~ In k top ->
         (nth k tied_scores 0 <= nth i tied_scores 0)%Z).
Proof.
  exact (ranking_orders_scores_only demo_last_first argsort_last_first_ok
           tied_scores).
Defined.

(** C2 as stated fails. On the scores 875, 750, 1000, 1000 the ranking
    [3; 2; 0; 1] is a sort of the negated scores, so it is within the
    contract of [np.argsort], and it is the ranking that [np.argsort]
    with its default kind returns for these scores; [argsort_last_first]
    computes it. Entries 2 and 3 have one score, and entry 3 comes
    first. *)
Lemma ties_by_index_counterexample :
  argsort_ok demo_last_first
  /\ is_argsort (map Z.opp tied_scores) [3; 2; 0; 1]
  /\ top_results demo_last_first tied_scores = [3; 2; 0; 1]
  /\ nth 3 tied_scores 0%Z = nth 2 tied_scores 0%Z
  /\ ~ ties_by_index tied_scores (top_results demo_last_first tied_scores).
Proof.
  split; [exact argsort_last_first_ok|].
  split; [exact (argsort_last_first_ok (map Z.opp tied_scores))|].
  split; [reflexivity|]. split; [reflexivity|].
  intros [Horder _].
  specialize (Horder 0 1 3 2 eq_refl eq_refl ltac:(lia) eq_refl). lia.
Qed.

(** ** The form handler *)

Section IndexFacts.

Variable rt : Runtime.

(** A text of fewer than five words is answered with a 400 message and
    no model is called. *)
Lemma analyse_short (input_text : string) :
  word_count_of input_text < 5 ->
  exists body, analyse rt input_text = (Message body 400, []).
Proof.
  intros Hshort. unfold analyse.
  destruct (PyStr.nonempty input_text); simpl; [|eauto].
  apply Nat.ltb_lt in Hshort. rewrite Hshort. eauto.
Qed.

(** A POST with pasted text is handled from that text alone. *)
Lemma index_pasted (request : Request) :
  method request = POST -> text_present request = true ->
  index rt request = analyse rt (pasted_text request).
Proof.
  unfold index, text_present, pasted_text. intros -> Hp. now rewrite Hp.
Qed.

(** A POST without pasted text is refused at once or handled from the
    text extracted from the upload. *)
Lemma index_uploaded (request : Request) :
  method request = POST -> text_present request = false ->
  (exists body, index rt request = (Message body 400, []))
  \/ (exists uploaded,
         file request = Some uploaded
         /\ index rt request
            = analyse rt (read_pdf_from_bytes rt (content uploaded))).
Proof.
  unfold index, text_present, pasted_text, text_from_upload.
  intros -> Hp. rewrite Hp.
  destruct (file request) as [uploaded|]; [|eauto].
  destruct (PyStr.nonempty (filename uploaded)); cbn [negb]; [|eauto].
  destruct (PyStr.endswith ".pdf" (PyStr.lower (filename uploaded)));
    cbn [negb]; [|eauto].
  destruct (content uploaded) as [|b bytes] eqn:Hc; [eauto|].
  match goal with
  | |- context [PyStr.startswith "[ERROR]" ?t] =>
      destruct (PyStr.startswith "[ERROR]" t)
  end; [eauto|].
  right. exists uploaded. rewrite Hc. split; reflexivity.
Qed.

(** Results only come out of the loop of [retrieve]. *)
Lemma index_results (request : Request) headers results category document
    calls :
  index rt request
  = (Rendered headers (Some results) category document, calls) ->
  exists cos_scores top,
    build_results rt cos_scores top [] = Some results.
Proof.
  assert (forall input_text,
             analyse rt input_text
             = (Rendered headers (Some results) category document, calls) ->
             exists cos_scores top,
               build_results rt cos_scores top []
               = Some results) as Hanalyse.
  { intros input_text. unfold analyse, retrieve.
    destruct (PyStr.nonempty input_text); simpl; [|discriminate].
    destruct (word_count_of input_text <? 5)%nat; [discriminate|].
    destruct (modellog_predict rt _); [|discriminate].
    destruct (semantic_search rt _) as [[cos_scores top]|]; [|discriminate].
    destruct (build_results rt cos_scores top []) eqn:Hb; [|discriminate].
    intros H. injection H as _ <- _ _ _. eauto. }
  unfold index. destruct (method request); try discriminate.
  destruct (PyStr.nonempty _); [apply Hanalyse|].
  destruct (text_from_upload rt _) as [response|extracted_text] eqn:E;
    [|apply Hanalyse].
  intros H. inversion H; subst. exfalso.
  unfold text_from_upload in E.
  repeat match type of E with
         | context [match ?x with _ => _ end] => destruct x
         end; discriminate.
Qed.

(** ** C4: minimum word count *)

(** C4. A POST whose text, pasted or extracted from the uploaded PDF,
    has fewer than five whitespace-separated tokens is answered with
    status 400, and neither the classifier nor the encoder is called. *)
Theorem short_input_rejected (request : Request) :
  method request = POST ->
  (text_present request = true ->
   word_count_of (pasted_text request) < 5 ->
   exists body, index rt request = (Message body 400, []))
  /\ (text_present request = false ->
      forall uploaded,
        file request = Some uploaded ->
        word_count_of (read_pdf_from_bytes rt (content uploaded)) < 5 ->
        exists body, index rt request = (Message body 400, [])).
Proof.
  intros Hpost. split.
  - intros Hp Hshort. rewrite (index_pasted request Hpost Hp).
    now apply analyse_short.
  - intros Hp uploaded Hfile Hshort.
    destruct (index_uploaded request Hpost Hp) as [H | (u & Hu & H)];
      [exact H|].
    rewrite H. apply analyse_short. congruence.
Qed.

(** ** C5: which input is used *)

(** C5, as the code has it. A POST with neither pasted text nor a file
    is answered with status 400. A POST with pasted text is handled from
    that text whether or not a file comes with it: the file is not
    looked at, and the answer is the one the same request gets without
    the file. *)
Theorem pasted_text_wins (request : Request) :
  method request = POST ->
  (text_present request = false -> file_present request = false ->
   index rt request
   = (Message "❌ No input provided (paste text or upload a PDF)." 400, []))
  /\ (text_present request = true ->
      index rt request
      = index rt {| method := POST;
                    text_input := text_input request;
                    file := None |}).
Proof.
  intros Hpost. split.
  - unfold index, text_present, pasted_text, file_present, text_from_upload.
    rewrite Hpost. intros -> Hfile.
    destruct (file request) as [uploaded|]; [|reflexivity].
    now rewrite Hfile.
  - intros Hp. rewrite (index_pasted request Hpost Hp).
    symmetry.
    exact (index_pasted {| method := POST; text_input := text_input request;
                           file := None |} eq_refl Hp).
Qed.

(** ** C7: previews *)

(** C7. In every page of results, the preview of a result is a prefix of
    its full text: its first 500 characters when the full text is longer
    than 500 characters, the whole text otherwise. *)
Theorem preview_is_prefix (request : Request) headers results category
    document calls :
  index rt request
  = (Rendered headers (Some results) category document, calls) ->
  forall r, In r results ->
    preview r = PyStr.take 500 (full_text r)
    /\ (exists rest, full_text r = (preview r ++ rest)%string)
    /\ (500 < String.length (full_text r) -> String.length (preview r) = 500)
    /\ (String.length (full_text r) <= 500 -> preview r = full_text r).
Proof.
  intros Hindex r Hin.
  destruct (index_results _ _ _ _ _ _ Hindex) as (cos_scores & top & Hb).
  assert (preview r = PyStr.take 500 (full_text r)) as Hprev.
  { apply (build_results_preview _ _ _ _ _ Hb); [intros ? []|exact Hin]. }
  split; [exact Hprev|]. rewrite Hprev. repeat split.
  - exists (PyStr.drop 500 (full_text r)). symmetry. apply take_drop.
  - intros Hlong. rewrite length_take. lia.
  - apply take_all.
Qed.

(** ** C10: failed extraction is told by the prefix *)

(** C10. [read_pdf_from_bytes] always returns a string: the pages joined
    by newlines, or, exactly when the fallback parser raised, a message
    that starts with "[ERROR]". The handler tells a failed extraction by
    that prefix alone, so every upload whose extracted text starts with
    "[ERROR]", a document that really begins so included, is answered
    with status 400 before any model is called. *)
Theorem extraction_error_in_band :
  (forall file_bytes,
      let first := page_texts (extracted (pdfplumber_open rt file_bytes)) in
      let second := page_texts (extracted (PyPDF2_PdfReader rt file_bytes)) in
      (raised (pdfplumber_open rt file_bytes) = None /\ first <> []
       /\ read_pdf_from_bytes rt file_bytes = PyStr.join newline first)
      \/ (raised (PyPDF2_PdfReader rt file_bytes) = None
          /\ read_pdf_from_bytes rt file_bytes
             = PyStr.join newline (first ++ second))
      \/ (exists e,
             raised (PyPDF2_PdfReader rt file_bytes) = Some e
             /\ read_pdf_from_bytes rt file_bytes
                = ("[ERROR] Could not extract PDF text: " ++ e)%string
             /\ PyStr.startswith "[ERROR]" (read_pdf_from_bytes rt file_bytes)
                = true))
  /\ (forall request uploaded,
         method request = POST ->
         text_present request = false ->
         file request = Some uploaded ->
         PyStr.nonempty (filename uploaded) = true ->
         PyStr.endswith ".pdf" (PyStr.lower (filename uploaded)) = true ->
         content uploaded <> [] ->
         PyStr.startswith "[ERROR]"
           (read_pdf_from_bytes rt (content uploaded)) = true ->
         index rt request
         = (Message ("❌ PDF processing failed: "
                     ++ read_pdf_from_bytes rt (content uploaded)) 400, [])).
Proof.
  split.
  - intros file_bytes. unfold read_pdf_from_bytes. cbv zeta.
    destruct (raised (pdfplumber_open rt file_bytes));
      destruct (page_texts (extracted (pdfplumber_open rt file_bytes)));
      try (left; split; [reflexivity | split; [discriminate | reflexivity]]);
      (destruct (raised (PyPDF2_PdfReader rt file_bytes)) as [e|];
       [ right; right; exists e; repeat split; reflexivity
       | right; left; split; reflexivity ]).
  - intros request uploaded Hpost Hp Hfile Hname Hpdf Hbytes Herr.
    unfold index, text_present, pasted_text, text_from_upload in *.
    rewrite Hpost, Hp, Hfile, Hname, Hpdf. cbn [negb].
    destruct (content uploaded) as [|b bytes]; [contradiction|].
    now rewrite Herr.
Qed.

End IndexFacts.

Lemma short_input_rejected_witness :
  (exists body, index demo short_paste = (Message body 400, []))
  /\ (exists body, index demo short_upload = (Message body 400, [])).
Proof.
  split.
  - apply (proj1 (short_input_rejected demo short_paste eq_refl)).
    + reflexivity.
    + vm_compute. lia.
  - apply (proj2 (short_input_rejected demo short_upload eq_refl)
             eq_refl _ eq_refl).
    vm_compute. lia.
Defined.

(** C5 as stated fails: a POST that carries both six pasted words and a
    PDF is not refused; it is classified and searched, and the page of
    results comes back. *)
Lemma both_inputs_counterexample :
  text_present paste_and_upload = true
  /\ file_present paste_and_upload = true
  /\ status_of (fst (index demo paste_and_upload)) = 200
  /\ snd (index demo paste_and_upload)
     = [Predict "The appeal against conviction is allowed";
        Encode "The appeal against conviction is allowed"].
Proof.
  vm_compute. repeat split.
Qed.

Lemma pasted_text_wins_witness :
  index demo blank_post
  = (Message "❌ No input provided (paste text or upload a PDF)." 400, [])
  /\ index demo paste_and_upload = index demo paste_only.
Proof.
  split.
  - apply (proj1 (pasted_text_wins demo blank_post eq_refl)); reflexivity.
  - apply (proj2 (pasted_text_wins demo paste_and_upload eq_refl)).
    reflexivity.
Defined.

Lemma preview_is_prefix_witness :
  exists results,
    index demo paste_only
    = (Rendered [] (Some results) (Some "Civil")
                (Some "The appeal against conviction is allowed"),
       [Predict "The appeal against conviction is allowed";
        Encode "The appeal against conviction is allowed"])
    /\ length results = 5
    /\ forall r, In r results ->
         preview r = PyStr.take 500 (full_text r)
         /\ (exists rest, full_text r = (preview r ++ rest)%string)
         /\ (500 < String.length (full_text r) -> String.length (preview r) = 500)
         /\ (String.length (full_text r) <= 500 -> preview r = full_text r).
Proof.
  eexists. split; [vm_compute; reflexivity|]. split; [reflexivity|].
  apply (preview_is_prefix demo paste_only
           [] _ (Some "Civil")
           (Some "The appeal against conviction is allowed")
           [Predict "The appeal against conviction is allowed";
            Encode "The appeal against conviction is allowed"]).
  vm_compute. reflexivity.
Defined.

Lemma extraction_error_in_band_witness :
  read_pdf_from_bytes demo [Byte.x00]
  = "[ERROR] Could not extract PDF text: EOF marker not found"
  /\ index demo error_upload
     = (Message "❌ PDF processing failed: [ERROR] codes are listed in the annexure to this order." 400,
        []).
Proof.
  split.
  - destruct (proj1 (extraction_error_in_band demo) [Byte.x00])
      as [(H & _) | [(H & _) | (e & H & Heq & _)]];
      [discriminate H | discriminate H |].
    injection H as <-. exact Heq.
  - apply (proj2 (extraction_error_in_band demo)
             error_upload
             {| filename := "Annexure.PDF"; content := [Byte.x01] |});
      try reflexivity.
    discriminate.
Defined.

(** ** C6: what the fallback returns *)

(** When the primary parser leaves no page text, whether it raised or
    not, the text returned is that of the secondary parser alone. *)
Lemma fallback_alone (rt : Runtime) (file_bytes : list Byte.byte) :
  page_texts (extracted (pdfplumber_open rt file_bytes)) = [] ->
  raised (PyPDF2_PdfReader rt file_bytes) = None ->
  read_pdf_from_bytes rt file_bytes
  = PyStr.join newline (page_texts (extracted (PyPDF2_PdfReader rt file_bytes))).
Proof.
  unfold read_pdf_from_bytes. intros -> ->.
  now destruct (raised (pdfplumber_open rt file_bytes)).
Qed.

(** C6. The text returned after a fallback should be the pages of the
    secondary parser alone. It is not when the primary parser raises
    after it has read a page: here the primary parser reads the cover
    page and raises on the next one, the secondary parser reads both
    pages, and the text returned has the cover page twice. *)
Theorem fallback_keeps_primary_pages :
  raised (pdfplumber_open demo [Byte.x02]) = Some "bad content stream"
  /\ raised (PyPDF2_PdfReader demo [Byte.x02]) = None
  /\ page_texts (extracted (PyPDF2_PdfReader demo [Byte.x02]))
     = ["Cover page"; "JUDGMENT The appeal is allowed."]
  /\ read_pdf_from_bytes demo [Byte.x02]
     = PyStr.join newline
         ["Cover page"; "Cover page"; "JUDGMENT The appeal is allowed."]
  /\ read_pdf_from_bytes demo [Byte.x02]
     <> PyStr.join newline
          (page_texts (extracted (PyPDF2_PdfReader demo [Byte.x02]))).
Proof.
  repeat split. discriminate.
Qed.

(** ** The chat functions *)

Lemma failure_xor (message : string) : answer_xor_error (failure message).
Proof.
  right. split; [reflexivity | discriminate].
Qed.

Lemma classify_error_xor (max_retries : nat) (error_str : string) :
  answer_xor_error (classify_error max_retries error_str).
Proof.
  unfold classify_error.
  destruct (_ || _); [apply failure_xor|].
  destruct (_ || _); apply failure_xor.
Qed.

Lemma attempts_xor (generate_content : nat -> Prompt -> Generation)
    (prompt : Prompt) (chunks : list json) (max_retries remaining : nat) :
  forall attempt,
    answer_xor_error
      (attempts generate_content prompt chunks max_retries remaining attempt).
Proof.
  induction remaining as [|remaining IH]; intros attempt; simpl.
  - apply failure_xor.
  - destruct (generate_content attempt prompt) as [text|error_str].
    + destruct (PyStr.nonempty text); [|apply failure_xor].
      left. split; [discriminate | reflexivity].
    + destruct (attempt =? max_retries - 1)%nat;
        [apply classify_error_xor | apply IH].
Qed.

(** With three attempts allowed and a provider that keeps raising, the
    provider is called three times and the third error is classified. *)
Lemma attempts_exhausted (generate_content : nat -> Prompt -> Generation)
    (prompt : Prompt) (chunks : list json) (e0 e1 e2 : string) :
  generate_content 0 prompt = Failed e0 ->
  generate_content 1 prompt = Failed e1 ->
  generate_content 2 prompt = Failed e2 ->
  attempts generate_content prompt chunks 3 3 0 = classify_error 3 e2.
Proof.
  intros H0 H1 H2. simpl. now rewrite H0, H1, H2.
Qed.

Section ChatFacts.

Variable rt : Runtime.

(** ** C9: answer or error *)

(** C9. Every result that [get_legal_explanation] returns, whatever the
    model, the question, the context and the number of attempts, has
    exactly one of [answer] and [error] set and the other [None]: an
    error alone when there is no model, when the provider answers with
    nothing and when the attempts are used up; an answer alone for an
    empty context and for a provider text. *)
Theorem explanation_answer_xor_error (question : string) (context_chunks : json)
    (max_retries : nat) (r : ExplanationResult) :
  get_legal_explanation rt question context_chunks max_retries
  = inr r ->
  answer_xor_error r.
Proof.
  unfold get_legal_explanation.
  destruct (gemini_model rt) as [generate_content|].
  - destruct (Py.truthy context_chunks); cbn [negb].
    + destruct (Py.len context_chunks) as [e|[|n]]; [discriminate| |].
      * intros H. injection H as <-. left. split; [discriminate|reflexivity].
      * destruct (Py.iterate context_chunks) as [e|chunks]; [discriminate|].
        destruct (chunk_entries chunks) as [e|entries]; [discriminate|].
        intros H. injection H as <-. apply attempts_xor.
    + intros H. injection H as <-. left. split; [discriminate|reflexivity].
  - intros H. injection H as <-. apply failure_xor.
Qed.

(** ** C8: empty context *)


End ChatFacts.

Lemma explanation_answer_xor_error_witness :
  answer_xor_error
    {| error := None;
       answer := Some "The court allowed the appeal. [A v. State]";
       sources := [JStr "A v. State"] |}
  /\ answer_xor_error
       (failure "❌ AI service temporarily unavailable due to quota limits. Please try again later or use the search functionality to find relevant legal cases.").
Proof.
  split.
  - apply (explanation_answer_xor_error demo
             "Explain in simple terms what the court held"
             (JArr [JObj [("case", JStr "A v. State");
                          ("full_text", JStr "JUDGMENT The appeal is allowed with costs.")];
                    JObj [("preview", JStr "JUDGMENT Bail is granted.")]])
             3).
    reflexivity.
  - apply (explanation_answer_xor_error demo_offline "What was held?"
             (JArr []) 3).
    reflexivity.
Defined.



(** * Further properties *)

(** ** The retry loop of [get_legal_explanation] *)

(** Attempts that raise before the last one are passed over. *)
Lemma attempts_skip_failed (generate_content : nat -> Prompt -> Generation)
    (prompt : Prompt) (chunks : list json) (max_retries : nat) :
  forall k remaining attempt,
    attempt + k < max_retries ->
    (forall a, attempt <= a < attempt + k ->
               exists e, generate_content a prompt = Failed e) ->
    attempts generate_content prompt chunks max_retries (k + remaining) attempt
    = attempts generate_content prompt chunks max_retries remaining
               (attempt + k).
Proof.
  induction k as [|k IH]; intros remaining attempt Hlt Hfail.
  - now rewrite Nat.add_0_r.
  - simpl. destruct (Hfail attempt ltac:(lia)) as [e ->].
    replace (attempt =? max_retries - 1)%nat with false
      by (symmetry; apply Nat.eqb_neq; lia).
    rewrite IH; [f_equal; lia | lia |].
    intros a Ha. apply Hfail. lia.
Qed.

(** The loop reads the provider at the attempts it makes and nowhere
    else. *)
Lemma attempts_agree (g g' : nat -> Prompt -> Generation) (prompt : Prompt)
    (chunks : list json) (max_retries : nat) :
  forall remaining attempt,
    (forall a, attempt <= a < attempt + remaining -> g a prompt = g' a prompt) ->
    attempts g prompt chunks max_retries remaining attempt
    = attempts g' prompt chunks max_retries remaining attempt.
Proof.
  induction remaining as [|remaining IH]; intros attempt Hsame; simpl.
  - reflexivity.
  - rewrite <- (Hsame attempt) by lia.
    destruct (g attempt prompt); [reflexivity|].
    destruct (attempt =? max_retries - 1)%nat; [reflexivity|].
    apply IH. intros a Ha. apply Hsame. lia.
Qed.

(** Every error message of the orchestrator is a non-empty text. *)
Lemma failure_message (message : string) (m : string) :
  PyStr.nonempty message = true ->
  error (failure message) = Some m -> PyStr.nonempty m = true.
Proof.
  intros Hne H. injection H as <-. exact Hne.
Qed.

Lemma classify_error_message (max_retries : nat) (error_str m : string) :
  error (classify_error max_retries error_str) = Some m ->
  PyStr.nonempty m = true.
Proof.
  unfold classify_error.
  destruct (_ || _); [now apply failure_message|].
  destruct (_ || _); now apply failure_message.
Qed.

Lemma attempts_message (generate_content : nat -> Prompt -> Generation)
    (prompt : Prompt) (chunks : list json) (max_retries remaining : nat) :
  forall attempt m,
    error (attempts generate_content prompt chunks max_retries remaining
                    attempt) = Some m ->
    PyStr.nonempty m = true.
Proof.
  induction remaining as [|remaining IH]; intros attempt m; simpl.
  - now apply failure_message.
  - destruct (generate_content attempt prompt) as [text|error_str].
    + destruct (PyStr.nonempty text); [discriminate | now apply failure_message].
    + destruct (attempt =? max_retries - 1)%nat;
        [apply classify_error_message | apply IH].
Qed.

Section OrchestratorFacts.

Variable rt : Runtime.

Lemma explanation_message (question : string) (context_chunks : json)
    (max_retries : nat) (r : ExplanationResult) (m : string) :
  get_legal_explanation rt question context_chunks max_retries = inr r ->
  error r = Some m -> PyStr.nonempty m = true.
Proof.
  unfold get_legal_explanation.
  destruct (gemini_model rt) as [generate_content|].
  - destruct (Py.truthy context_chunks); cbn [negb].
    + destruct (Py.len context_chunks) as [e|[|n]]; [discriminate| |].
      * intros H. injection H as <-. discriminate.
      * destruct (Py.iterate context_chunks) as [e|chunks]; [discriminate|].
        destruct (chunk_entries chunks) as [e|entries]; [discriminate|].
        intros H. injection H as <-. apply attempts_message.
    + intros H. injection H as <-. discriminate.
  - intros H. injection H as <-. now apply failure_message.
Qed.

Lemma explanation_answered (question : string) (context_chunks : json)
    (max_retries : nat) (r : ExplanationResult) :
  get_legal_explanation rt question context_chunks max_retries = inr r ->
  error r = None -> answer r <> None.
Proof.
  unfold get_legal_explanation.
  destruct (gemini_model rt) as [generate_content|].
  - destruct (Py.truthy context_chunks); cbn [negb].
    + destruct (Py.len context_chunks) as [e|[|n]]; [discriminate| |].
      * intros H. injection H as <-. discriminate.
      * destruct (Py.iterate context_chunks) as [e|chunks]; [discriminate|].
        destruct (chunk_entries chunks) as [e|entries]; [discriminate|].
        intros H. injection H as <-. intros Herr.
        destruct (attempts_xor generate_content
                    {| template := choose_template question;
                       context := entries;
                       user_question := question |}
                    chunks max_retries max_retries 0) as [[Ha _] | [_ He]];
          [exact Ha | contradiction].
    + intros H. injection H as <-. discriminate.
  - intros H. injection H as <-. discriminate.
Qed.

(** How the orchestrator runs on a non-empty list of chunks when a model
    is loaded. *)
Lemma explanation_on_chunks (generate_content : nat -> Prompt -> Generation)
    (question : string) (chunk : json) (chunks : list json)
    (entries : list (json * json)) (max_retries : nat) :
  gemini_model rt = Some generate_content ->
  chunk_entries (chunk :: chunks) = inr entries ->
  get_legal_explanation rt question (JArr (chunk :: chunks)) max_retries
  = inr (attempts generate_content
           {| template := choose_template question;
              context := entries;
              user_question := question |}
           (chunk :: chunks) max_retries max_retries 0).
Proof.
  intros Hmodel Hentries. unfold get_legal_explanation.
  rewrite Hmodel. cbn [Py.truthy negb Py.len length Py.iterate].
  now rewrite Hentries.
Qed.

(** The provider is asked at most [max_retries] times: what it would
    answer to a later call has no part in the result. *)
Theorem retries_are_bounded (rt' : Runtime)
    (g g' : nat -> Prompt -> Generation) (question : string)
    (context_chunks : json) (max_retries : nat) :
  gemini_model rt = Some g ->
  gemini_model rt' = Some g' ->
  (forall a prompt, a < max_retries -> g a prompt = g' a prompt) ->
  get_legal_explanation rt question context_chunks max_retries
  = get_legal_explanation rt' question context_chunks max_retries.
Proof.
  intros Hg Hg' Hsame. unfold get_legal_explanation. rewrite Hg, Hg'.
  destruct (Py.truthy context_chunks); cbn [negb]; [|reflexivity].
  destruct (Py.len context_chunks) as [e|[|n]]; try reflexivity.
  destruct (Py.iterate context_chunks) as [e|chunks]; [reflexivity|].
  destruct (chunk_entries chunks) as [e|entries]; [reflexivity|].
  f_equal. apply attempts_agree. intros a Ha. apply Hsame. lia.
Qed.

(** When the provider raises at every attempt, the error reported is
    the classification of what the last attempt raised. *)
Theorem retries_exhausted (generate_content : nat -> Prompt -> Generation)
    (question : string) (chunk : json) (chunks : list json)
    (entries : list (json * json)) (max_retries : nat) (last_error : string) :
  gemini_model rt = Some generate_content ->
  chunk_entries (chunk :: chunks) = inr entries ->
  0 < max_retries ->
  let prompt := {| template := choose_template question;
                   context := entries;
                   user_question := question |} in
  (forall a, a < max_retries -> exists e, generate_content a prompt = Failed e) ->
  generate_content (max_retries - 1) prompt = Failed last_error ->
  get_legal_explanation rt question (JArr (chunk :: chunks)) max_retries
  = inr (classify_error max_retries last_error).
Proof.
  intros Hmodel Hentries Hpos prompt Hfail Hlast.
  rewrite (explanation_on_chunks _ _ _ _ _ _ Hmodel Hentries). f_equal.
  fold prompt.
  replace max_retries with ((max_retries - 1) + 1) at 2 by lia.
  rewrite attempts_skip_failed; [|lia|intros a Ha; apply Hfail; lia].
  simpl. rewrite Hlast, Nat.eqb_refl. reflexivity.
Qed.

(** The first attempt that does not raise decides: a text becomes the
    answer, stripped, with the cases of the context as sources; an
    empty response is an error at once and is not retried. *)
Theorem first_response_decides (generate_content : nat -> Prompt -> Generation)
    (question : string) (chunk : json) (chunks : list json)
    (entries : list (json * json)) (max_retries k : nat) (text : string) :
  gemini_model rt = Some generate_content ->
  chunk_entries (chunk :: chunks) = inr entries ->
  k < max_retries ->
  let prompt := {| template := choose_template question;
                   context := entries;
                   user_question := question |} in
  (forall a, a < k -> exists e, generate_content a prompt = Failed e) ->
  generate_content k prompt = Generated text ->
  get_legal_explanation rt question (JArr (chunk :: chunks)) max_retries
  = inr (if PyStr.nonempty text
         then {| error := None;
                 answer := Some (PyStr.strip text);
                 sources := cited_cases (chunk :: chunks) |}
         else failure "No response generated from AI model").
Proof.
  intros Hmodel Hentries Hk prompt Hfail Htext.
  rewrite (explanation_on_chunks _ _ _ _ _ _ Hmodel Hentries). f_equal.
  fold prompt.
  replace max_retries with (k + S (max_retries - k - 1)) at 2 by lia.
  rewrite attempts_skip_failed; [|lia|intros a Ha; apply Hfail; lia].
  simpl. rewrite Htext. reflexivity.
Qed.

End OrchestratorFacts.

Lemma retries_are_bounded_witness :
  get_legal_explanation demo "What was held?" (JArr [demo_chunk]) 3
  = get_legal_explanation demo_late_runtime "What was held?"
      (JArr [demo_chunk]) 3.
Proof.
  apply (retries_are_bounded demo demo_late_runtime demo_provider demo_late
           "What was held?" (JArr [demo_chunk]) 3 eq_refl eq_refl).
  intros a prompt Ha. unfold demo_late.
  apply Nat.ltb_lt in Ha. now rewrite Ha.
Defined.

Lemma retries_exhausted_witness :
  get_legal_explanation demo_down "What was held?" (JArr [demo_chunk]) 3
  = inr (classify_error 3 "429 quota exceeded, call 2").
Proof.
  apply (retries_exhausted demo_down demo_failing "What was held?"
           demo_chunk [] _ 3 "429 quota exceeded, call 2" eq_refl eq_refl).
  - lia.
  - intros a _. eexists. reflexivity.
  - reflexivity.
Defined.

Lemma first_response_decides_witness :
  get_legal_explanation demo "What was held?" (JArr [demo_chunk]) 3
  = inr {| error := None;
           answer := Some "The court allowed the appeal. [A v. State]";
           sources := [JStr "A v. State"] |}.
Proof.
  apply (first_response_decides demo demo_provider "What was held?"
           demo_chunk [] _ 3 2
           "  The court allowed the appeal. [A v. State]  " eq_refl eq_refl).
  - lia.
  - intros [|[|a]] Ha; [eexists; reflexivity | eexists; reflexivity | lia].
  - reflexivity.
Defined.

(** ** The chat route *)

Section ChatRoute.

Variable rt : Runtime.

(** The reply to a request with a question that is not blank, up to the
    call of the orchestrator. *)
Lemma chat_body_on_request (raw_question : string) (context_chunks : json) :
  PyStr.nonempty (PyStr.strip raw_question) = true ->
  chat_body rt (Returns (chat_request raw_question context_chunks))
  = match Py.len context_chunks with
    | inl e => inl e
    | inr _ =>
        if negb (Py.truthy context_chunks)
        then inr (canned (if is_greeting (PyStr.strip raw_question)
                          then greeting_message else guidance_message))
        else
          match get_legal_explanation rt (PyStr.strip raw_question)
                  context_chunks 3 with
          | inl e => inl e
          | inr result =>
              match error result with
              | Some message =>
                  if PyStr.nonempty message
                  then inr (refuse (Literal message) 500)
                  else inr {| success := true;
                              response := answer result;
                              reply_error := None;
                              reply_sources := Some (sources result);
                              status := 200 |}
              | None =>
                  inr {| success := true;
                         response := answer result;
                         reply_error := None;
                         reply_sources := Some (sources result);
                         status := 200 |}
              end
          end
    end.
Proof.
  intros Hne. unfold chat_body, chat_request.
  cbn [Py.truthy negb Py.contains_str Py.has_key existsb fst orb
       Py.getitem_str Py.dict_get].
  change (String.eqb "question" "question") with true.
  change (String.eqb "question" "context") with false.
  change (String.eqb "context" "context") with true.
  cbn [orb]. rewrite Hne. cbn [negb].
  destruct (Py.len context_chunks); [reflexivity|].
  destruct (Py.truthy context_chunks); cbn [negb]; [reflexivity|].
  now destruct (is_greeting (PyStr.strip raw_question)).
Qed.

(** With a context that is a non-empty list, the route answers 200 with
    the answer and the sources exactly when the orchestrator returned an
    answer; an error of the orchestrator becomes a 500 reply with that
    error, and an exception of the orchestrator a 500 reply as well. *)
Theorem chat_relays_explanation (raw_question : string) (chunk : json)
    (chunks : list json) :
  PyStr.nonempty (PyStr.strip raw_question) = true ->
  let reply :=
    chat rt (Returns (chat_request raw_question (JArr (chunk :: chunks)))) in
  match get_legal_explanation rt (PyStr.strip raw_question)
          (JArr (chunk :: chunks)) 3 with
  | inl e => reply = refuse (ChatbotError e) 500
  | inr result =>
      match error result with
      | Some message => reply = refuse (Literal message) 500
      | None =>
          answer result <> None
          /\ reply = {| success := true;
                        response := answer result;
                        reply_error := None;
                        reply_sources := Some (sources result);
                        status := 200 |}
      end
  end.
Proof.
  intros Hne reply. subst reply. unfold chat.
  rewrite (chat_body_on_request _ _ Hne). cbn [Py.len Py.truthy negb].
  destruct (get_legal_explanation rt (PyStr.strip raw_question)
              (JArr (chunk :: chunks)) 3) as [e|result] eqn:E;
    [reflexivity|].
  destruct (error result) as [message|] eqn:Herr.
  - now rewrite (explanation_message rt _ _ _ _ _ E Herr).
  - split; [exact (explanation_answered rt _ _ _ _ E Herr) | reflexivity].
Qed.

(** A context without a length (null, a boolean, a number) is answered
    with status 500, whatever the question; so is, when a model is
    loaded, a list whose first element is not an object. *)
Theorem chat_rejects_malformed_context (raw_question : string) :
  PyStr.nonempty (PyStr.strip raw_question) = true ->
  (forall context_chunks e,
      Py.len context_chunks = inl e ->
      chat rt (Returns (chat_request raw_question context_chunks))
      = refuse (ChatbotError e) 500)
  /\ (gemini_model rt <> None ->
      forall chunk chunks,
        (forall members, chunk <> JObj members) ->
        chat rt (Returns (chat_request raw_question (JArr (chunk :: chunks))))
        = refuse (ChatbotError AttributeError) 500).
Proof.
  intros Hne. split.
  - intros context_chunks e Hlen. unfold chat.
    now rewrite (chat_body_on_request _ _ Hne), Hlen.
  - intros Hmodel chunk chunks Hchunk. unfold chat.
    rewrite (chat_body_on_request _ _ Hne). cbn [Py.len Py.truthy negb].
    unfold get_legal_explanation.
    destruct (gemini_model rt); [|contradiction].
    cbn [Py.truthy negb Py.len length Py.iterate chunk_entries].
    destruct chunk; try reflexivity. now destruct (Hchunk members).
Qed.

(** A body that is falsy or has no ["question"] is refused with 400; so
    is a question that is blank. A question that is not a string, and a
    body that could not be read, are answered with 500. *)
Theorem chat_rejects_bad_question :
  (forall data,
      Py.truthy data = false ->
      chat rt (Returns data)
      = refuse (Literal "Missing 'question' in request data") 400)
  /\ (forall members,
         Py.has_key members "question" = false ->
         chat rt (Returns (JObj members))
         = refuse (Literal "Missing 'question' in request data") 400)
  /\ (forall members raw_question,
         Py.has_key members "question" = true ->
         Py.dict_get members "question" JNull = JStr raw_question ->
         PyStr.nonempty (PyStr.strip raw_question) = false ->
         chat rt (Returns (JObj members))
         = refuse (Literal "Question cannot be empty") 400)
  /\ (forall members,
         Py.has_key members "question" = true ->
         (forall raw_question,
             Py.dict_get members "question" JNull <> JStr raw_question) ->
         chat rt (Returns (JObj members))
         = refuse (ChatbotError AttributeError) 500)
  /\ (forall e,
         chat rt (Raises e) = refuse (ChatbotError (External e)) 500).
Proof.
  repeat split.
  - intros data Hfalsy. unfold chat, chat_body. now rewrite Hfalsy.
  - intros members Hkey. unfold chat, chat_body.
    destruct members as [|kv members']; [reflexivity|].
    cbn [Py.truthy negb Py.contains_str]. now rewrite Hkey.
  - intros members raw_question Hkey Hq Hblank. unfold chat, chat_body.
    destruct members as [|kv members']; [discriminate|].
    cbn [Py.truthy negb Py.contains_str Py.getitem_str].
    now rewrite Hkey, Hq, Hblank.
  - intros members Hkey Hq. unfold chat, chat_body.
    destruct members as [|kv members']; [discriminate|].
    cbn [Py.truthy negb Py.contains_str Py.getitem_str]. rewrite Hkey.
    destruct (Py.dict_get (kv :: members') "question" JNull) eqn:E;
      try reflexivity.
    now destruct (Hq s).
Qed.

(** In every reply [success] tells the status: a successful reply has
    status 200, a response and no error; a failed one has status 400 or
    500, an error, and neither response nor sources. *)
Theorem chat_reply_is_coherent (request_json : result json) :
  let reply := chat rt request_json in
  (success reply = true ->
   status reply = 200 /\ reply_error reply = None /\ response reply <> None)
  /\ (success reply = false ->
      (status reply = 400 \/ status reply = 500)
      /\ reply_error reply <> None
      /\ response reply = None /\ reply_sources reply = None).
Proof.
  assert (forall message code,
             code = 400 \/ code = 500 ->
             let reply := refuse message code in
             (success reply = true ->
              status reply = 200 /\ reply_error reply = None
              /\ response reply <> None)
             /\ (success reply = false ->
                 (status reply = 400 \/ status reply = 500)
                 /\ reply_error reply <> None
                 /\ response reply = None /\ reply_sources reply = None))
    as Hrefuse.
  { intros message code Hcode. simpl. split; [discriminate|].
    intros _. repeat split; [exact Hcode | discriminate]. }
  assert (forall message,
             let reply := canned message in
             (success reply = true ->
              status reply = 200 /\ reply_error reply = None
              /\ response reply <> None)
             /\ (success reply = false ->
                 (status reply = 400 \/ status reply = 500)
                 /\ reply_error reply <> None
                 /\ response reply = None /\ reply_sources reply = None))
    as Hcanned.
  { intros message. simpl. split; [|discriminate].
    intros _. repeat split. discriminate. }
  unfold chat, chat_body.
  destruct request_json as [data|e]; [|apply Hrefuse; now right].
  destruct (Py.truthy data); cbn [negb]; [|apply Hrefuse; now left].
  destruct (Py.contains_str "question" data) as [e|[|]];
    [apply Hrefuse; now right| |apply Hrefuse; now left].
  destruct (Py.getitem_str data "question") as [e|v];
    [apply Hrefuse; now right|].
  destruct v; try (apply Hrefuse; now right).
  destruct (PyStr.nonempty (PyStr.strip s)); cbn [negb];
    [|apply Hrefuse; now left].
  match goal with
  | |- context [Py.len ?c] => set (context_chunks := c)
  end.
  destruct (Py.len context_chunks) as [e|n]; [apply Hrefuse; now right|].
  destruct (Py.truthy context_chunks); cbn [negb].
  - destruct (get_legal_explanation rt (PyStr.strip s) context_chunks 3)
      as [e|result] eqn:E; [apply Hrefuse; now right|].
    destruct (error result) as [message|] eqn:Herr.
    + rewrite (explanation_message rt _ _ _ _ _ E Herr).
      apply Hrefuse; now right.
    + simpl. split; [|discriminate]. intros _.
      repeat split. exact (explanation_answered rt _ _ _ _ E Herr).
  - destruct (is_greeting (PyStr.strip s)); apply Hcanned.
Qed.

End ChatRoute.

(** Without a key, with an empty key, or when [genai.configure] or the
    model constructor raised at start-up, no model is loaded, and every
    chat request with a question and a non-empty context is answered
    with status 500 and the fixed message, whatever the chunks are. *)
Theorem chat_without_model (rt : Runtime) (GEMINI_API_KEY : option string)
    (configure : string -> result unit)
    (GenerativeModel : string -> result (nat -> Prompt -> Generation))
    (raw_question : string) (context_chunks : json) (n : nat) :
  gemini_model rt = init_gemini GEMINI_API_KEY configure GenerativeModel ->
  GEMINI_API_KEY = None \/ GEMINI_API_KEY = Some ""
  \/ (exists key e, GEMINI_API_KEY = Some key /\ configure key = Raises e)
  \/ (forall name, exists e, GenerativeModel name = Raises e) ->
  PyStr.nonempty (PyStr.strip raw_question) = true ->
  Py.truthy context_chunks = true ->
  Py.len context_chunks = inr n ->
  gemini_model rt = None
  /\ chat rt (Returns (chat_request raw_question context_chunks))
     = refuse (Literal "❌ AI service temporarily unavailable due to quota limits. Please try again later or use the search functionality to find relevant legal cases.") 500.
Proof.
  intros Hinit Hwhy Hne Htruthy Hlen.
  assert (gemini_model rt = None) as Hnone.
  { rewrite Hinit. unfold init_gemini.
    destruct Hwhy as [-> | [-> | [(key & e & -> & Hraise) | Hraise]]];
      try reflexivity.
    - destruct (PyStr.nonempty key); [now rewrite Hraise | reflexivity].
    - destruct GEMINI_API_KEY as [key|]; [|reflexivity].
      destruct (PyStr.nonempty key); [|reflexivity].
      destruct (configure key); [|reflexivity].
      now destruct (Hraise (nth 0 model_names "")) as [e ->]. }
  split; [exact Hnone|]. unfold chat.
  rewrite (chat_body_on_request rt _ _ Hne), Hlen, Htruthy. cbn [negb].
  unfold get_legal_explanation. now rewrite Hnone.
Qed.

Lemma chat_relays_explanation_witness :
  chat demo (Returns (chat_request " What was held? " (JArr [demo_chunk])))
  = {| success := true;
       response := Some "The court allowed the appeal. [A v. State]";
       reply_error := None;
       reply_sources := Some [JStr "A v. State"];
       status := 200 |}
  /\ chat demo_down
          (Returns (chat_request " What was held? " (JArr [demo_chunk])))
     = refuse (Literal "❌ QUOTA EXCEEDED: Your Gemini API free tier limit has been reached. Please upgrade to a paid plan or wait for the quota to reset. See: https://ai.google.dev/pricing") 500.
Proof.
  split.
  - exact (proj2 (chat_relays_explanation demo " What was held? " demo_chunk []
                    eq_refl)).
  - exact (chat_relays_explanation demo_down " What was held? " demo_chunk []
             eq_refl).
Defined.

Lemma chat_rejects_malformed_context_witness :
  chat demo (Returns (chat_request "hello" JNull))
  = refuse (ChatbotError TypeError) 500
  /\ chat demo (Returns (chat_request "What was held?"
                           (JArr [JStr "A v. State"; demo_chunk])))
     = refuse (ChatbotError AttributeError) 500.
Proof.
  split.
  - apply (proj1 (chat_rejects_malformed_context demo "hello" eq_refl)).
    reflexivity.
  - apply (proj2 (chat_rejects_malformed_context demo "What was held?"
                    eq_refl)).
    + discriminate.
    + intros members. discriminate.
Defined.

Lemma chat_rejects_bad_question_witness :
  chat demo (Returns (JArr []))
  = refuse (Literal "Missing 'question' in request data") 400
  /\ chat demo (Returns (JObj [("context", JArr [demo_chunk])]))
     = refuse (Literal "Missing 'question' in request data") 400
  /\ chat demo (Returns (chat_request "   " (JArr [demo_chunk])))
     = refuse (Literal "Question cannot be empty") 400
  /\ chat demo (Returns (JObj [("question", JNum 42)]))
     = refuse (ChatbotError AttributeError) 500.
Proof.
  destruct (chat_rejects_bad_question demo) as (H1 & H2 & H3 & H4 & _).
  split; [|split; [|split]].
  - apply H1. reflexivity.
  - apply H2. reflexivity.
  - apply (H3 _ "   "); reflexivity.
  - apply H4; [reflexivity|]. intros raw_question. discriminate.
Defined.

Lemma chat_reply_is_coherent_witness :
  status (chat demo (Returns (chat_request "hello" (JArr [])))) = 200
  /\ reply_error (chat demo_down
                    (Returns (chat_request "Why?" (JArr [demo_chunk]))))
     <> None.
Proof.
  split.
  - apply (proj1 (chat_reply_is_coherent demo
                    (Returns (chat_request "hello" (JArr []))))).
    reflexivity.
  - apply (proj2 (chat_reply_is_coherent demo_down
                    (Returns (chat_request "Why?" (JArr [demo_chunk]))))).
    reflexivity.
Defined.

Lemma chat_without_model_witness :
  gemini_model demo_offline = None
  /\ chat demo_offline
          (Returns (chat_request "What was held?" (JArr [JNum 7])))
     = refuse (Literal "❌ AI service temporarily unavailable due to quota limits. Please try again later or use the search functionality to find relevant legal cases.") 500.
Proof.
  apply (chat_without_model demo_offline (Some "")
           (fun _ => Returns tt) (fun _ => Returns demo_provider)
           "What was held?" (JArr [JNum 7]) 1).
  - reflexivity.
  - right. left. reflexivity.
  - reflexivity.
  - reflexivity.
  - reflexivity.
Defined.

(** ** The context and the sources of an explanation *)

(** A member that is found does not depend on the default. *)
Lemma dict_get_found (members : list (string * json)) (key : string)
    (d d' : json) :
  Py.dict_get members key d <> d ->
  Py.dict_get members key d' = Py.dict_get members key d.
Proof.
  induction members as [|[k v] members IH]; simpl; intros H.
  - contradiction.
  - destruct (String.eqb k key); [reflexivity | now apply IH].
Qed.

Lemma slice_to_size (n : nat) (v body : json) :
  Py.slice_to n v = inr body -> body_size body <= n.
Proof.
  destruct v; simpl; try discriminate; intros H; injection H as <-; simpl.
  - rewrite length_take. lia.
  - rewrite length_firstn. lia.
Qed.

(** The context has one entry per chunk, each with at most 1000
    characters of text; a chunk with a text under ["full_text"]
    contributes the first 1000 characters of that text, whatever its
    ["preview"] is. *)
Theorem context_entries_are_bounded (chunks : list json)
    (entries : list (json * json)) :
  chunk_entries chunks = inr entries ->
  length entries = length chunks
  /\ Forall (fun entry => body_size (snd entry) <= 1000) entries
  /\ (forall members txt,
         In (JObj members) chunks ->
         Py.dict_get members "full_text" JNull = JStr txt ->
         In (Py.dict_get members "case" (JStr "Unknown Case"),
             JStr (PyStr.take 1000 txt)) entries).
Proof.
  revert entries. induction chunks as [|chunk chunks IH]; intros entries; simpl.
  - intros H. injection H as <-. repeat split; [constructor | intros ? ? []].
  - destruct (chunk_entry chunk) as [e|entry] eqn:Hentry; [discriminate|].
    destruct (chunk_entries chunks) as [e|rest]; [discriminate|].
    intros H. injection H as <-.
    destruct (IH rest eq_refl) as (Hlen & Hall & Hfull).
    split; [simpl; now rewrite Hlen|]. split.
    + constructor; [|exact Hall].
      unfold chunk_entry in Hentry. destruct chunk; try discriminate.
      destruct (Py.slice_to 1000 _) as [e|body] eqn:Hslice; [discriminate|].
      injection Hentry as <-. simpl. exact (slice_to_size _ _ _ Hslice).
    + intros members txt [-> | Hin] Htxt; [left | right; eauto].
      unfold chunk_entry in Hentry.
      rewrite (dict_get_found members "full_text" JNull) in Hentry
        by (rewrite Htxt; discriminate).
      rewrite Htxt in Hentry. simpl in Hentry. now injection Hentry as <-.
Qed.

Lemma cited_cases_from_context (chunks : list json) :
  Forall (fun source =>
            Py.truthy source = true
            /\ exists members,
                 In (JObj members) chunks
                 /\ Py.dict_get members "case" JNull = source)
         (cited_cases chunks)
  /\ length (cited_cases chunks) <= length chunks.
Proof.
  induction chunks as [|chunk chunks [IHall IHlen]]; simpl.
  - split; [constructor | lia].
  - assert (Forall (fun source =>
                      Py.truthy source = true
                      /\ exists members,
                           (chunk = JObj members \/ In (JObj members) chunks)
                           /\ Py.dict_get members "case" JNull = source)
                   (cited_cases chunks)) as Hrest.
    { eapply Forall_impl; [|exact IHall].
      intros source (Ht & members & Hin & Hget). eauto 6. }
    destruct chunk; try (split; [exact Hrest | lia]).
    destruct (Py.truthy (Py.dict_get members "case" JNull)) eqn:Ht;
      [|split; [exact Hrest | lia]].
    split; [|simpl; lia]. constructor; [|exact Hrest].
    assert (Py.dict_get members "case" (JStr "Unknown Case")
            = Py.dict_get members "case" JNull) as ->.
    { apply dict_get_found. intros Heq. now rewrite Heq in Ht. }
    split; [exact Ht|]. exists members. split; [now left | reflexivity].
Qed.

Lemma attempts_sources (generate_content : nat -> Prompt -> Generation)
    (prompt : Prompt) (chunks : list json) (max_retries remaining : nat) :
  forall attempt,
    let r := attempts generate_content prompt chunks max_retries remaining
                      attempt in
    sources r = [] \/ sources r = cited_cases chunks.
Proof.
  induction remaining as [|remaining IH]; intros attempt; simpl.
  - now left.
  - destruct (generate_content attempt prompt) as [text|error_str].
    + destruct (PyStr.nonempty text); [now right | now left].
    + destruct (attempt =? max_retries - 1)%nat; [|apply IH].
      left. unfold classify_error.
      destruct (_ || _); [reflexivity|]. now destruct (_ || _).
Qed.

(** The sources of an explanation come from the context and from
    nothing else: each is the non-empty ["case"] of one of the chunks
    sent, and there are no more sources than chunks. *)
Theorem sources_come_from_context (rt : Runtime) (question : string)
    (chunks : list json) (max_retries : nat) (r : ExplanationResult) :
  get_legal_explanation rt question (JArr chunks) max_retries = inr r ->
  Forall (fun source =>
            Py.truthy source = true
            /\ exists members,
                 In (JObj members) chunks
                 /\ Py.dict_get members "case" JNull = source)
         (sources r)
  /\ length (sources r) <= length chunks.
Proof.
  unfold get_legal_explanation.
  destruct (gemini_model rt) as [generate_content|].
  - destruct chunks as [|chunk chunks];
      cbn [Py.truthy negb Py.len length Py.iterate].
    + intros H. injection H as <-. split; [constructor | simpl; lia].
    + destruct (chunk_entries (chunk :: chunks)) as [e|entries];
        [discriminate|].
      intros H. injection H as <-.
      destruct (attempts_sources generate_content
                  {| template := choose_template question;
                     context := entries;
                     user_question := question |}
                  (chunk :: chunks) max_retries max_retries 0) as [-> | ->].
      * split; [constructor | simpl; lia].
      * apply cited_cases_from_context.
  - intros H. injection H as <-. split; [constructor | simpl; lia].
Qed.

Lemma context_entries_are_bounded_witness :
  length [(JStr "A v. State",
           JStr "JUDGMENT The appeal is allowed with costs.")] = 1
  /\ In (JStr "A v. State", JStr "JUDGMENT The appeal is allowed with costs.")
        [(JStr "A v. State",
          JStr "JUDGMENT The appeal is allowed with costs.")].
Proof.
  destruct (context_entries_are_bounded [demo_chunk] _ eq_refl)
    as (Hlen & _ & Hfull).
  split; [exact Hlen|].
  apply (Hfull _ "JUDGMENT The appeal is allowed with costs." (or_introl eq_refl)).
  reflexivity.
Defined.

Lemma sources_come_from_context_witness :
  Forall (fun source =>
            Py.truthy source = true
            /\ exists members,
                 In (JObj members) [demo_chunk; JObj [("preview", JStr "x")]]
                 /\ Py.dict_get members "case" JNull = source)
         [JStr "A v. State"]
  /\ length [JStr "A v. State"] <= 2.
Proof.
  exact (sources_come_from_context demo "What was held?"
           [demo_chunk; JObj [("preview", JStr "x")]] 3 _ eq_refl).
Defined.

(** ** More on retrieval *)

Section RetrievalMore.

Variable rt : Runtime.

(** What the loop returns extends what it was given, entry by entry
    along [top]. *)
Lemma build_results_entries (cos_scores : list Z) (top : list nat) :
  forall results out,
    build_results rt cos_scores top results = Some out ->
    exists added,
      out = results ++ added
      /\ Forall2 (fun idx r =>
                    nth_error (case_names rt) idx = Some (case r)
                    /\ nth_error cos_scores idx = Some (score r)
                    /\ nth_error (judgment_texts rt) idx = Some (full_text r))
                 top added.
Proof.
  induction top as [|idx top IH]; simpl; intros results out Hb.
  - injection Hb as <-. exists []. split; [now rewrite app_nil_r | constructor].
  - destruct (nth_error (case_names rt) idx) as [name|] eqn:En; [|discriminate].
    destruct (nth_error cos_scores idx) as [s|] eqn:Es; [|discriminate].
    destruct (nth_error (judgment_texts rt) idx) as [txt|] eqn:Et;
      [|discriminate].
    destruct (IH _ _ Hb) as (added & -> & Hall).
    eexists (_ :: added). rewrite <- app_assoc. split; [reflexivity|].
    constructor; [simpl; auto | exact Hall].
Qed.

(** An index outside one of the arrays stops the loop. *)
Lemma build_results_out_of_range (cos_scores : list Z) (top : list nat)
    (i : nat) :
  In i top ->
  length (case_names rt) <= i \/ length cos_scores <= i
  \/ length (judgment_texts rt) <= i ->
  forall results, build_results rt cos_scores top results = None.
Proof.
  intros Hin Hout. induction top as [|idx top IH]; [contradiction|].
  intros results. simpl.
  destruct (nth_error (case_names rt) idx) as [name|] eqn:En; [|reflexivity].
  destruct (nth_error cos_scores idx) as [s|] eqn:Es; [|reflexivity].
  destruct (nth_error (judgment_texts rt) idx) as [txt|] eqn:Et;
    [|reflexivity].
  destruct Hin as [-> | Hin]; [|now apply IH].
  exfalso.
  assert (nth_error (case_names rt) i <> None) as Hn by congruence.
  assert (nth_error cos_scores i <> None) as Hs by congruence.
  assert (nth_error (judgment_texts rt) i <> None) as Ht by congruence.
  apply nth_error_Some in Hn, Hs, Ht. lia.
Qed.

(** Each result is one judgment: its name, its text and its score are
    taken at one and the same index of the three arrays, and the score
    is the similarity of the query to the embedding at that index. *)
Theorem results_are_judgments (text : string) (query_embedding : Embedding rt)
    (results : list RankedResult) :
  model_encode rt text = Returns query_embedding ->
  retrieve rt text = Retrieved results ->
  Forall (fun r =>
            exists idx row,
              nth_error (case_names rt) idx = Some (case r)
              /\ nth_error (judgment_texts rt) idx = Some (full_text r)
              /\ nth_error (embeddings rt) idx = Some row
              /\ score r = cos_sim rt query_embedding row)
         results.
Proof.
  intros Henc. unfold retrieve, semantic_search. rewrite Henc.
  destruct (build_results rt _ _ []) as [out|] eqn:Hb; [|discriminate].
  intros H. injection H as <-.
  destruct (build_results_entries _ _ _ _ Hb) as (added & -> & Hall).
  simpl. clear Hb. induction Hall as [|idx r top added (Hn & Hs & Ht) _ IH];
    constructor; [|exact IH].
  rewrite nth_error_map in Hs.
  destruct (nth_error (embeddings rt) idx) as [row|] eqn:Hrow;
    [|discriminate].
  simpl in Hs. injection Hs as Hscore. exists idx, row. auto.
Qed.

(** A corpus whose names or texts are fewer than its embeddings is not
    checked at start-up: a query whose ranking reaches an index past
    the end of one of them gets no page, after both models have run. *)
Theorem misaligned_corpus_is_unhandled (request : Request)
    (query_embedding : Embedding rt) (category : string) (i : nat) :
  method request = POST ->
  text_present request = true ->
  5 <= word_count_of (pasted_text request) ->
  let text := text_after_judgment (pasted_text request) in
  modellog_predict rt text = Returns category ->
  model_encode rt text = Returns query_embedding ->
  In i (top_results rt (map (cos_sim rt query_embedding) (embeddings rt))) ->
  length (case_names rt) <= i \/ length (judgment_texts rt) <= i ->
  retrieve rt text = LookupError
  /\ index rt request = (Unhandled, [Predict text; Encode text]).
Proof.
  intros Hpost Hp Hwords text Hcat Henc Hin Hout.
  assert (retrieve rt text = LookupError) as Hret.
  { unfold retrieve, semantic_search. rewrite Henc.
    rewrite (build_results_out_of_range _ _ i Hin); [reflexivity|].
    destruct Hout; auto. }
  split; [exact Hret|].
  rewrite (index_pasted rt request Hpost Hp). unfold analyse.
  unfold text_present in Hp. rewrite Hp. cbn [negb].
  replace (word_count_of (pasted_text request) <? 5)%nat with false
    by (symmetry; apply Nat.ltb_ge; exact Hwords).
  fold text. now rewrite Hcat, Hret.
Qed.

Hypothesis argsort_contract : argsort_ok rt.

(** The result of rank 1 is a best match: no judgment of the corpus is
    more similar to the query. *)
Theorem first_result_is_best (text : string) (query_embedding : Embedding rt)
    (best : RankedResult) (others : list RankedResult) :
  model_encode rt text = Returns query_embedding ->
  retrieve rt text = Retrieved (best :: others) ->
  forall row, In row (embeddings rt) ->
              (cos_sim rt query_embedding row <= score best)%Z.
Proof.
  intros Henc. unfold retrieve, semantic_search. rewrite Henc.
  set (cos_scores := map (cos_sim rt query_embedding) (embeddings rt)).
  destruct (build_results rt cos_scores _ []) as [out|] eqn:Hb; [|discriminate].
  intros H. injection H as ->.
  destruct (build_results_entries _ _ _ _ Hb) as (added & Hout & Hall).
  simpl in Hout. subst added.
  intros row Hrow.
  apply In_nth_error in Hrow as [k Hk].
  assert (nth k cos_scores 0%Z = cos_sim rt query_embedding row) as Hscore.
  { apply nth_error_nth. unfold cos_scores.
    now rewrite nth_error_map, Hk. }
  assert (k < length cos_scores) as Hklt.
  { unfold cos_scores. rewrite length_map.
    apply nth_error_Some. congruence. }
  rewrite <- Hscore.
  pose proof (top_results_descending rt argsort_contract cos_scores) as Hsorted.
  inversion Hall as [|i0 r top' added' (_ & Hs & _) Hrest Htop Hadded].
  subst r added'.
  assert (nth i0 cos_scores 0%Z = score best) as Hbest
    by now apply nth_error_nth.
  rewrite <- Htop in Hsorted. simpl in Hsorted.
  inversion Hsorted as [|? ? _ Hge]; subst.
  destruct (in_dec Nat.eq_dec k (top_results rt cos_scores)) as [Hin | Hnot].
  - rewrite <- Htop in Hin. destruct Hin as [<- | Hin]; [lia|].
    rewrite Forall_forall in Hge.
    specialize (Hge _ (in_map (fun i => nth i cos_scores 0%Z) _ _ Hin)).
    rewrite Hbest in Hge. lia.
  - assert (In i0 (top_results rt cos_scores)) as Hi0
        by (rewrite <- Htop; now left).
    pose proof (top_results_best rt argsort_contract cos_scores i0 k
                  Hi0 Hklt Hnot). lia.
Qed.

End RetrievalMore.

Lemma results_are_judgments_witness :
  exists results,
    retrieve demo "The appeal against conviction is allowed"
    = Retrieved results
    /\ Forall (fun r =>
                 exists idx row,
                   nth_error demo_names idx = Some (case r)
                   /\ nth_error demo_texts idx = Some (full_text r)
                   /\ nth_error demo_embeddings idx = Some row
                   /\ score r = demo_cos_sim 40 row)
              results.
Proof.
  eexists. split; [vm_compute; reflexivity|].
  apply (results_are_judgments demo
           "The appeal against conviction is allowed" 40%Z _ eq_refl).
  vm_compute. reflexivity.
Defined.

Lemma misaligned_corpus_is_unhandled_witness :
  index demo_short_names paste_only
  = (Unhandled,
     [Predict "The appeal against conviction is allowed";
      Encode "The appeal against conviction is allowed"]).
Proof.
  apply (misaligned_corpus_is_unhandled demo_short_names paste_only
           40%Z "Civil" 2 eq_refl eq_refl).
  - vm_compute. lia.
  - reflexivity.
  - reflexivity.
  - vm_compute. auto.
  - left. simpl. lia.
Defined.

Lemma first_result_is_best_witness :
  Forall (fun row => (demo_cos_sim 40 row <= 0)%Z) demo_embeddings.
Proof.
  pose proof (first_result_is_best demo argsort_stable_ok
                "The appeal against conviction is allowed" 40%Z) as H.
  specialize (H _ _ eq_refl eq_refl). apply Forall_forall. exact H.
Defined.

(** ** White space and words *)

Lemma all_space_chars (s : string) :
  all_space s = forallb PyStr.is_space (list_ascii_of_string s).
Proof.
  induction s as [|c s IH]; simpl; [reflexivity | now rewrite IH].
Qed.

Lemma chars_append (s t : string) :
  list_ascii_of_string (s ++ t)
  = list_ascii_of_string s ++ list_ascii_of_string t.
Proof.
  induction s as [|c s IH]; simpl; [reflexivity | now rewrite IH].
Qed.

Lemma string_of_chars_app (l m : list ascii) :
  string_of_list_ascii (l ++ m)
  = (string_of_list_ascii l ++ string_of_list_ascii m)%string.
Proof.
  induction l as [|c l IH]; simpl; [reflexivity | now rewrite IH].
Qed.

Lemma rev_rev (s : string) : PyStr.rev (PyStr.rev s) = s.
Proof.
  unfold PyStr.rev.
  now rewrite list_ascii_of_string_of_list_ascii, rev_involutive,
    string_of_list_ascii_of_string.
Qed.

Lemma rev_append (s t : string) :
  PyStr.rev (s ++ t) = (PyStr.rev t ++ PyStr.rev s)%string.
Proof.
  unfold PyStr.rev. now rewrite chars_append, rev_app_distr, string_of_chars_app.
Qed.

Lemma all_space_rev (s : string) : all_space (PyStr.rev s) = all_space s.
Proof.
  rewrite !all_space_chars. unfold PyStr.rev.
  rewrite list_ascii_of_string_of_list_ascii.
  destruct (forallb PyStr.is_space (list_ascii_of_string s)) eqn:E.
  - rewrite forallb_forall in *. intros c Hc. apply E. now apply in_rev.
  - destruct (forallb PyStr.is_space (List.rev (list_ascii_of_string s)))
      eqn:E'; [|reflexivity].
    rewrite <- E. symmetry. rewrite forallb_forall in *.
    intros c Hc. apply E'. now apply in_rev in Hc.
Qed.

Lemma all_space_append (s t : string) :
  all_space (s ++ t) = all_space s && all_space t.
Proof.
  induction s as [|c s IH]; simpl; [reflexivity|].
  now rewrite IH, andb_assoc.
Qed.

(** [lstrip] removes a run of white space and stops at the first other
    character. *)
Lemma lstrip_split (s : string) :
  exists pad, s = (pad ++ PyStr.lstrip s)%string /\ all_space pad = true.
Proof.
  induction s as [|c s (pad & Hs & Hpad)]; simpl.
  - now exists EmptyString.
  - destruct (PyStr.is_space c) eqn:E.
    + exists (String c pad). simpl. rewrite E, Hpad. split; [now f_equal | reflexivity].
    + now exists EmptyString.
Qed.

Lemma lstrip_head (s : string) (c : ascii) (rest : string) :
  PyStr.lstrip s = String c rest -> PyStr.is_space c = false.
Proof.
  induction s as [|a s IH]; simpl; [discriminate|].
  destruct (PyStr.is_space a) eqn:E; [exact IH|].
  intros H. injection H as <- _. exact E.
Qed.

Lemma lstrip_empty (s : string) :
  PyStr.lstrip s = EmptyString <-> all_space s = true.
Proof.
  induction s as [|c s IH]; simpl; [tauto|].
  destruct (PyStr.is_space c); simpl; [exact IH|].
  split; discriminate.
Qed.

Lemma rstrip_split (s : string) :
  exists pad, s = (PyStr.rstrip s ++ pad)%string /\ all_space pad = true.
Proof.
  destruct (lstrip_split (PyStr.rev s)) as (pad & Hs & Hpad).
  exists (PyStr.rev pad). split; [|now rewrite all_space_rev].
  unfold PyStr.rstrip. rewrite <- rev_append, <- Hs. symmetry. apply rev_rev.
Qed.

(** What [strip] leaves is empty exactly when the text is white space. *)
Lemma strip_empty (s : string) :
  PyStr.nonempty (PyStr.strip s) = false <-> all_space s = true.
Proof.
  destruct (lstrip_split s) as (pad & Hs & Hpad).
  destruct (rstrip_split (PyStr.lstrip s)) as (pad' & Hl & Hpad').
  fold (PyStr.strip s) in Hl. split.
  - intros H. destruct (PyStr.strip s) eqn:E; [|discriminate].
    simpl in Hl. rewrite Hs, Hl, all_space_append, Hpad, Hpad'. reflexivity.
  - intros Hall. apply lstrip_empty in Hall.
    unfold PyStr.strip. rewrite Hall. reflexivity.
Qed.

(** White space at the end of a text adds no word. *)
Lemma split_from_padding (s pad : string) :
  all_space pad = true ->
  forall word, PyStr.split_from (s ++ pad) word = PyStr.split_from s word.
Proof.
  intros Hpad. induction s as [|c s IH]; intros word; simpl.
  - induction pad as [|c pad IHpad] in Hpad, word |- *; [reflexivity|].
    simpl in Hpad |- *. apply andb_true_iff in Hpad as [Hc Hrest].
    rewrite Hc. destruct word.
    + now apply IHpad.
    + rewrite (IHpad Hrest []). reflexivity.
  - destruct (PyStr.is_space c); [|apply IH].
    destruct word; [apply IH | now rewrite IH].
Qed.

Lemma split_lstrip (s : string) : PyStr.split (PyStr.lstrip s) = PyStr.split s.
Proof.
  unfold PyStr.split. induction s as [|c s IH]; simpl; [reflexivity|].
  destruct (PyStr.is_space c) eqn:E; [exact IH|].
  simpl. now rewrite E.
Qed.

Lemma split_strip (s : string) : PyStr.split (PyStr.strip s) = PyStr.split s.
Proof.
  destruct (rstrip_split (PyStr.lstrip s)) as (pad & Hl & Hpad).
  fold (PyStr.strip s) in Hl.
  rewrite <- (split_lstrip s), Hl. unfold PyStr.split.
  now rewrite split_from_padding.
Qed.

(** Every word that [split] returns, with the run being read [word]
    free of white space, is not empty and free of white space. *)
Lemma split_from_words (s : string) :
  forall word,
    forallb (fun c => negb (PyStr.is_space c)) word = true ->
    Forall (fun w => PyStr.nonempty w = true /\ no_space w = true)
           (PyStr.split_from s word).
Proof.
  assert (forall word,
             word <> [] ->
             forallb (fun c => negb (PyStr.is_space c)) word = true ->
             let w := string_of_list_ascii (List.rev word) in
             PyStr.nonempty w = true /\ no_space w = true) as Hword.
  { intros word Hne Hall. split.
    - destruct (List.rev word) eqn:E; [|reflexivity].
      apply (f_equal (@List.rev ascii)) in E.
      rewrite rev_involutive in E. now subst.
    - assert (forall l, forallb (fun c => negb (PyStr.is_space c)) l = true ->
                        no_space (string_of_list_ascii l) = true) as Hl.
      { induction l as [|c l IH]; simpl; [reflexivity|].
        intros H. apply andb_true_iff in H as [-> H]. now apply IH. }
      apply Hl. rewrite forallb_forall in *. intros c Hc.
      apply Hall. now apply in_rev. }
  induction s as [|c s IH]; intros word Hall; simpl.
  - destruct word as [|a word]; [constructor|].
    constructor; [|constructor]. now apply Hword.
  - destruct (PyStr.is_space c) eqn:E.
    + destruct word as [|a word]; [now apply IH|].
      constructor; [now apply Hword | now apply IH].
    + apply IH. simpl. now rewrite E.
Qed.

(** The word count of a text is the number of its maximal runs of
    characters other than white space: the words are not empty and
    hold no white space, white space around the text does not count,
    and there is no word exactly when the text is white space. *)
Theorem word_count_counts_words (input_text : string) :
  word_count_of input_text = length (PyStr.split input_text)
  /\ Forall (fun w => PyStr.nonempty w = true /\ no_space w = true)
            (PyStr.split input_text)
  /\ (forall before after,
         all_space before = true -> all_space after = true ->
         word_count_of (before ++ input_text ++ after)
         = word_count_of input_text)
  /\ (word_count_of input_text = 0 <-> all_space input_text = true).
Proof.
  assert (forall s, word_count_of s = length (PyStr.split s)) as Hcount.
  { intros s. unfold word_count_of. now rewrite split_strip. }
  split; [apply Hcount|]. split; [now apply split_from_words|]. split.
  - intros before after Hb Ha. rewrite !Hcount. f_equal.
    unfold PyStr.split.
    induction before as [|c before IH].
    + simpl. now apply split_from_padding.
    + simpl in Hb |- *. apply andb_true_iff in Hb as [-> Hb]. now apply IH.
  - rewrite Hcount. split.
    + intros Hzero. unfold PyStr.split in Hzero.
      assert (forall s word,
                 PyStr.split_from s word = [] -> word = [] /\ all_space s = true)
        as Hnone.
      { induction s as [|c s IH]; intros word; simpl.
        - destruct word; [auto | discriminate].
        - destruct (PyStr.is_space c).
          + destruct word; [|discriminate]. intros H.
            now destruct (IH _ H).
          + intros H. destruct (IH _ H). discriminate. }
      apply length_zero_iff_nil in Hzero. now destruct (Hnone _ _ Hzero).
    + intros Hall. apply lstrip_empty in Hall.
      now rewrite <- split_lstrip, Hall.
Qed.

Lemma word_count_counts_words_witness :
  word_count_of ("   " ++ "The appeal is allowed" ++ "  ")
  = word_count_of "The appeal is allowed"
  /\ word_count_of "    " = 0.
Proof.
  split.
  - apply (proj1 (proj2 (proj2 (word_count_counts_words
                                  "The appeal is allowed")))
             "   " "  "); reflexivity.
  - apply (proj2 (proj2 (proj2 (word_count_counts_words "    ")))).
    reflexivity.
Defined.

(** ** More on the form handler *)

Section IndexMore.

Variable rt : Runtime.

(** A pasted text of white space only is no pasted text: the handler
    turns to the uploaded file exactly when the form field is absent or
    holds nothing but white space, and then answers as if the field
    were absent. *)
Theorem blank_paste_is_no_paste (request : Request) :
  (text_present request = false <->
   match text_input request with
   | Some t => all_space t = true
   | None => True
   end)
  /\ (text_present request = false ->
      index rt request
      = index rt {| method := method request;
                    text_input := None;
                    file := file request |}).
Proof.
  split.
  - unfold text_present, pasted_text.
    destruct (text_input request) as [t|]; [apply strip_empty|].
    split; [trivial | reflexivity].
  - unfold text_present, pasted_text, index. intros Hp.
    destruct (method request); try reflexivity.
    rewrite Hp. reflexivity.
Qed.

(** An upload is refused with status 400, before any model is called,
    when its name does not end in ".pdf" in any letter case, when it
    holds no byte, and when no text comes out of it; this last case
    includes the file from which neither parser reads any text and
    neither raises. *)
Theorem upload_refusals (request : Request) (uploaded : FileStorage) :
  method request = POST ->
  text_present request = false ->
  file request = Some uploaded ->
  PyStr.nonempty (filename uploaded) = true ->
  (PyStr.endswith ".pdf" (PyStr.lower (filename uploaded)) = false ->
   index rt request = (Message "❌ Only PDF files are allowed." 400, []))
  /\ (PyStr.endswith ".pdf" (PyStr.lower (filename uploaded)) = true ->
      (content uploaded = [] ->
       index rt request = (Message "❌ Uploaded file is empty." 400, []))
      /\ (content uploaded <> [] ->
          read_pdf_from_bytes rt (content uploaded) = "" ->
          index rt request
          = (Message "❌ No text could be extracted from the input." 400, []))
      /\ (page_texts (extracted (pdfplumber_open rt (content uploaded))) = [] ->
          page_texts (extracted (PyPDF2_PdfReader rt (content uploaded))) = [] ->
          raised (PyPDF2_PdfReader rt (content uploaded)) = None ->
          read_pdf_from_bytes rt (content uploaded) = "")).
Proof.
  intros Hpost Hp Hfile Hname.
  unfold index, text_present, pasted_text in *. rewrite Hpost, Hp.
  unfold text_from_upload. rewrite Hfile, Hname. cbn [negb].
  split; [intros ->; reflexivity|].
  intros ->. cbn [negb]. repeat split.
  - intros ->. reflexivity.
  - intros Hbytes Hempty.
    destruct (content uploaded) as [|b bytes]; [contradiction|].
    rewrite Hempty. reflexivity.
  - intros H1 H2 Hraised. unfold read_pdf_from_bytes.
    rewrite H1, H2, Hraised.
    now destruct (raised (pdfplumber_open rt (content uploaded))).
Qed.

End IndexMore.

Lemma blank_paste_is_no_paste_witness :
  index demo (upload_of "order.pdf" [Byte.x02])
  = index demo {| method := POST;
                  text_input := None;
                  file := Some {| filename := "order.pdf";
                                  content := [Byte.x02] |} |}.
Proof.
  apply (proj2 (blank_paste_is_no_paste demo (upload_of "order.pdf" [Byte.x02]))).
  apply (proj1 (blank_paste_is_no_paste demo (upload_of "order.pdf" [Byte.x02]))).
  reflexivity.
Defined.

Lemma upload_refusals_witness :
  index demo (upload_of "order.pdf.txt" [Byte.x02])
  = (Message "❌ Only PDF files are allowed." 400, [])
  /\ index demo (upload_of "Order.PDF" [])
     = (Message "❌ Uploaded file is empty." 400, [])
  /\ index demo_scanned (upload_of "scan.pdf" [Byte.x25])
     = (Message "❌ No text could be extracted from the input." 400, []).
Proof.
  split; [|split].
  - apply (proj1 (upload_refusals demo (upload_of "order.pdf.txt" [Byte.x02])
                    _ eq_refl eq_refl eq_refl eq_refl)).
    reflexivity.
  - apply (proj2 (upload_refusals demo (upload_of "Order.PDF" [])
                    _ eq_refl eq_refl eq_refl eq_refl) eq_refl).
    reflexivity.
  - destruct (proj2 (upload_refusals demo_scanned
                       (upload_of "scan.pdf" [Byte.x25])
                       _ eq_refl eq_refl eq_refl eq_refl) eq_refl)
      as (_ & Hnone & Hscan).
    apply Hnone; [discriminate|]. apply Hscan; reflexivity.
Defined.

(** ** More on the extractor *)

(** Which parser the text comes from. When the primary parser returns
    without raising and with some text, the text is its pages alone and
    the secondary parser has no part in it, even one that would raise.
    When the primary parser leaves no text, the outcome is that of the
    secondary parser alone: its pages, or the error message with what
    it raised. *)
Theorem extraction_by_parser (rt : Runtime) (file_bytes : list Byte.byte) :
  let first := page_texts (extracted (pdfplumber_open rt file_bytes)) in
  let second := page_texts (extracted (PyPDF2_PdfReader rt file_bytes)) in
  (raised (pdfplumber_open rt file_bytes) = None -> first <> [] ->
   read_pdf_from_bytes rt file_bytes = PyStr.join newline first
   /\ forall rt',
        pdfplumber_open rt' file_bytes = pdfplumber_open rt file_bytes ->
        read_pdf_from_bytes rt' file_bytes = read_pdf_from_bytes rt file_bytes)
  /\ (first = [] ->
      read_pdf_from_bytes rt file_bytes
      = match raised (PyPDF2_PdfReader rt file_bytes) with
        | None => PyStr.join newline second
        | Some e => ("[ERROR] Could not extract PDF text: " ++ e)%string
        end).
Proof.
  cbv zeta. split.
  - intros Hraised Hfirst.
    assert (forall rt',
               pdfplumber_open rt' file_bytes = pdfplumber_open rt file_bytes ->
               read_pdf_from_bytes rt' file_bytes
               = PyStr.join newline
                   (page_texts (extracted (pdfplumber_open rt file_bytes))))
      as Hany.
    { intros rt' Hsame. unfold read_pdf_from_bytes. rewrite Hsame, Hraised.
      now destruct (page_texts (extracted (pdfplumber_open rt file_bytes))). }
    split; [now apply Hany|].
    intros rt' Hsame. rewrite (Hany rt' Hsame). symmetry. now apply Hany.
  - intros Hfirst. unfold read_pdf_from_bytes. rewrite Hfirst.
    now destruct (raised (pdfplumber_open rt file_bytes)).
Qed.

Lemma extraction_by_parser_witness :
  read_pdf_from_bytes demo [Byte.x03]
  = PyStr.join newline ["Scanned exhibit"]
  /\ read_pdf_from_bytes demo [Byte.x00]
     = "[ERROR] Could not extract PDF text: EOF marker not found".
Proof.
  split.
  - assert (page_texts (extracted (pdfplumber_open demo [Byte.x03])) <> [])
      as Htext by discriminate.
    exact (proj1 (proj1 (extraction_by_parser demo [Byte.x03]) eq_refl Htext)).
  - apply (proj2 (extraction_by_parser demo [Byte.x00])). reflexivity.
Defined.

(** ** More on the marker *)

Lemma drop_append (before rest : string) :
  PyStr.drop (String.length before) (before ++ rest) = rest.
Proof.
  induction before as [|c before IH]; simpl; [now destruct rest | exact IH].
Qed.

(** The analysed text is a final part of the input that either begins
    with the marker or is the whole input, and truncating it again
    changes nothing. *)
Theorem text_after_judgment_is_stable (input_text : string) :
  (exists skipped,
      input_text = (skipped ++ text_after_judgment input_text)%string
      /\ (skipped = "" \/
          PyStr.startswith "JUDGMENT" (text_after_judgment input_text) = true))
  /\ text_after_judgment (text_after_judgment input_text)
     = text_after_judgment input_text.
Proof.
  assert (text_after_judgment input_text = input_text
          \/ exists before after,
               input_text = (before ++ "JUDGMENT" ++ after)%string
               /\ text_after_judgment input_text
                  = ("JUDGMENT" ++ after)%string) as [Heq | Hcut].
  { unfold text_after_judgment, PyStr.find.
    destruct (find_from_spec "JUDGMENT" input_text 0 ltac:(lia))
      as [[Hf Hno] | (p & Hf & Hocc & Hmin)]; rewrite Hf.
    - now left.
    - right.
      replace (negb (0 + Z.of_nat p =? -1)%Z) with true
        by (symmetry; apply negb_true_iff, Z.eqb_neq; lia).
      unfold PyStr.slice_from.
      replace (0 + Z.of_nat p <? 0)%Z with false
        by (symmetry; apply Z.ltb_ge; lia).
      rewrite Z.add_0_l, Nat2Z.id.
      destruct Hocc as (before & after & -> & <-).
      exists before, after. now rewrite drop_append. }
  - rewrite !Heq. split; [exists ""; auto | reflexivity].
  - destruct Hcut as (before & after & Hinput & ->).
    split; [|reflexivity].
    exists before. split; [exact Hinput | now right].
Qed.

Lemma text_after_judgment_is_stable_witness :
  text_after_judgment (text_after_judgment "IN THE HIGH COURT JUDGMENT allowed")
  = text_after_judgment "IN THE HIGH COURT JUDGMENT allowed".
Proof.
  exact (proj2 (text_after_judgment_is_stable
                  "IN THE HIGH COURT JUDGMENT allowed")).
Defined.

(** ** The choice of the prompt *)

Lemma lower_append (s t : string) :
  PyStr.lower (s ++ t) = (PyStr.lower s ++ PyStr.lower t)%string.
Proof.
  induction s as [|c s IH]; simpl; [reflexivity | now rewrite IH].
Qed.

Lemma contains_occurrence (sub s : string) (p : nat) :
  occurs_at sub s p -> PyStr.contains sub s = true.
Proof.
  intros Hocc. unfold PyStr.contains.
  destruct (PyStr.find s sub =? -1)%Z eqn:E; [|reflexivity].
  apply Z.eqb_eq in E. now apply (find_absent _ _ E) in Hocc.
Qed.

(** A question that holds a keyword of the structured summary, in any
    letter case and at any place, gets the structured prompt, also when
    it holds a keyword of the plain explanation; a keyword of the plain
    explanation gets the plain prompt when no keyword of the structured
    summary occurs. *)
Theorem template_by_keyword (before word after keyword : string) :
  PyStr.lower word = keyword ->
  let question := (before ++ word ++ after)%string in
  (In keyword structured_keywords ->
   choose_template question = StructuredSummary)
  /\ (In keyword layman_keywords ->
      any_keyword structured_keywords (PyStr.lower question) = false ->
      choose_template question = LaymanExplanation).
Proof.
  intros Hlower question.
  assert (PyStr.contains keyword (PyStr.lower question) = true) as Hhas.
  { apply (contains_occurrence _ _ (String.length (PyStr.lower before))).
    exists (PyStr.lower before), (PyStr.lower after). split; [|reflexivity].
    unfold question. now rewrite !lower_append, Hlower. }
  assert (forall keywords,
             In keyword keywords ->
             any_keyword keywords (PyStr.lower question) = true) as Hany.
  { intros keywords Hin. unfold any_keyword. apply existsb_exists.
    now exists keyword. }
  unfold choose_template. split.
  - intros Hin. now rewrite (Hany _ Hin).
  - intros Hin Hnone. now rewrite Hnone, (Hany _ Hin).
Qed.

Lemma template_by_keyword_witness :
  choose_template "Please Explain In Simple Terms what the HIGH COURT held"
  = StructuredSummary
  /\ choose_template "Can you EXPLAIN IN SIMPLE TERMS what was decided?"
     = LaymanExplanation.
Proof.
  split.
  - apply (proj1 (template_by_keyword
                    "Please Explain In Simple Terms what the "
                    "HIGH COURT" " held" "high court" eq_refl)).
    simpl. auto 10.
  - apply (proj2 (template_by_keyword "Can you " "EXPLAIN IN SIMPLE TERMS"
                    " what was decided?" "explain in simple terms" eq_refl)).
    + simpl. auto.
    + reflexivity.
Defined.
